(** * document-qa-rag: a shallow embedding of the PDF question-answering pipeline

    The repository is orchestration code around external collaborators
    (PDF loader, text splitter, embedding model, Chroma index, Ollama).
    The embedding keeps the repository's own functions as Rocq definitions
    and reaches every collaborator through the [Backend] interface, so the
    theorems hold for whatever the collaborators do. *)

From Stdlib Require Import ZArith QArith NArith List String Ascii Decimal.
From stdpp Require Import base option list gmap strings.

Local Open Scope Z_scope.

(** * Python values *)

(** A Python [str] is a sequence of Unicode code points. *)
Abbreviation str := (list N).

(** String literals of the source are written as Rocq strings (one code
    point per character; the literals used here are ASCII). *)
Definition lit (x : string) : str := map N_of_ascii (list_ascii_of_string x).
Coercion lit : string >-> list.

Module py.

(** ["\n"] and the double quote, which have no escape in a Rocq literal. *)
Definition nl : str := [10%N].
Definition dq : str := [34%N].
(** U+2713 and U+274C, used by the progress messages. *)
Definition check_mark : str := [10003%N].
Definition cross_mark : str := [10060%N].

(** [str.isspace] on one code point (CPython's [_PyUnicode_IsWhitespace]). *)
Definition isspace (c : N) : bool :=
  (((9 <=? c) && (c <=? 13)) || ((28 <=? c) && (c <=? 32))
   || (c =? 133) || (c =? 160) || (c =? 5760)
   || ((8192 <=? c) && (c <=? 8202))
   || (c =? 8232) || (c =? 8233) || (c =? 8239) || (c =? 8287)
   || (c =? 12288))%N.

Fixpoint lstrip (s : str) : str :=
  match s with
  | [] => []
  | c :: rest => if isspace c then lstrip rest else s
  end.

Definition rstrip (s : str) : str := rev (lstrip (rev s)).

(** [s.strip()] with no argument. *)
Definition strip (s : str) : str := rstrip (lstrip s).

(** Truth value of a [str]: empty is false. *)
Definition truthy (s : str) : bool :=
  match s with [] => false | _ :: _ => true end.

(** [s[:n]] for a non-negative [n]. *)
Definition slice_to (n : nat) (s : str) : str := take n s.

(** [s * n]. *)
Fixpoint repeat_str (s : str) (n : nat) : str :=
  match n with
  | O => []
  | S n' => s ++ repeat_str s n'
  end.

(** [sep.join(xs)]. *)
Fixpoint join (sep : str) (xs : list str) : str :=
  match xs with
  | [] => []
  | x :: rest =>
      match rest with
      | [] => x
      | _ :: _ => x ++ sep ++ join sep rest
      end
  end.

Fixpoint startswith (p s : str) : bool :=
  match p, s with
  | [], _ => true
  | _ :: _, [] => false
  | a :: p', b :: s' => (a =? b)%N && startswith p' s'
  end.

(** [sub in s]. *)
Fixpoint in_str (sub s : str) : bool :=
  startswith sub s ||
  match s with
  | [] => false
  | _ :: s' => in_str sub s'
  end.

(** [str(n)] for an [int]. *)
Fixpoint digits (d : Decimal.uint) : str :=
  match d with
  | Decimal.Nil => []
  | Decimal.D0 d' => 48%N :: digits d'
  | Decimal.D1 d' => 49%N :: digits d'
  | Decimal.D2 d' => 50%N :: digits d'
  | Decimal.D3 d' => 51%N :: digits d'
  | Decimal.D4 d' => 52%N :: digits d'
  | Decimal.D5 d' => 53%N :: digits d'
  | Decimal.D6 d' => 54%N :: digits d'
  | Decimal.D7 d' => 55%N :: digits d'
  | Decimal.D8 d' => 56%N :: digits d'
  | Decimal.D9 d' => 57%N :: digits d'
  end.

Definition str_of_int (z : Z) : str :=
  match Z.to_int z with
  | Decimal.Pos d => digits d
  | Decimal.Neg d => 45%N :: digits d
  end.

(** Values stored in a passage's metadata dict. *)
Inductive value :=
| VStr (s : str)
| VInt (z : Z).

(** [str(v)], as an f-string renders [{v}]. *)
Definition str_of (v : value) : str :=
  match v with
  | VStr s => s
  | VInt z => str_of_int z
  end.

(** Instances of [Exception], which is what [except Exception] binds and
    what the repository and its libraries raise on failure.  [OtherError]
    stands for any further subclass raised by a library, with its class
    name and its [str()]. *)
Inductive exn :=
| ValueError (msg : str)
| IndexError (msg : str)
| OtherError (cls : str) (msg : str).

(** [str(e)]. *)
Definition str_of_exn (e : exn) : str :=
  match e with
  | ValueError msg => msg
  | IndexError msg => msg
  | OtherError _ msg => msg
  end.

(** Outcome of a call: a value, or a raised exception. *)
Inductive result (A : Type) :=
| Return (a : A)
| Raise (e : exn).
Arguments Return {A} a.
Arguments Raise {A} e.

(** A computation over the world [W] (console, file system, index,
    model server): it ends in a value or an exception and leaves a world. *)
Definition M (W A : Type) : Type := W -> result A * W.

Definition ret {W A : Type} (a : A) : M W A := fun w => (Return a, w).

Definition raise {W A : Type} (e : exn) : M W A := fun w => (Raise e, w).

Definition bind {W A B : Type} (m : M W A) (k : A -> M W B) : M W B :=
  fun w =>
    match m w with
    | (Return a, w') => k a w'
    | (Raise e, w') => (Raise e, w')
    end.

(** [try: body  except Exception as e: handler e]. *)
Definition try_except {W A : Type} (body : M W A) (handler : exn -> M W A)
  : M W A :=
  fun w =>
    match body w with
    | (Return a, w') => (Return a, w')
    | (Raise e, w') => handler e w'
    end.

(** [xs[0]]. *)
Definition first {W A : Type} (xs : list A) : M W A :=
  match xs with
  | [] => raise (IndexError "list index out of range")
  | x :: _ => ret x
  end.

End py.
Export py.

Notation "x <- c1 ;; c2" := (bind c1 (fun x => c2))
  (at level 100, c1 at next level, right associativity).
Notation "c1 ;; c2" := (bind c1 (fun _ => c2))
  (at level 100, right associativity).

(** [langchain.schema.Document]. *)
Record Document := mkDocument {
  page_content : str;
  metadata : gmap str value
}.

(** Metadata keys used by the pipeline. *)
Definition k_source : str := "source".
Definition k_page : str := "page".
Definition k_chunk_id : str := "chunk_id".

(** * src/config.py *)

(** The module's constants.  [BASE_DIR] is [Path(__file__).parent.parent],
    fixed by where the repository is installed. *)
Class Config := {
  BASE_DIR : str;
  DATA_DIR : str;
  DOCUMENTS_DIR : str;
  VECTORSTORE_DIR : str;
  OLLAMA_MODEL : str;
  OLLAMA_BASE_URL : str;
  EMBEDDING_MODEL : str;
  CHUNK_SIZE : Z;
  CHUNK_OVERLAP : Z;
  TOP_K_RESULTS : Z;
  SIMILARITY_THRESHOLD : Q;
  COLLECTION_NAME : str;
  TEMPERATURE : Q;
  MAX_TOKENS : Z;
  PROMPT_TEMPLATE : str
}.

Module config.

(** [Path / name]. *)
Definition path_join (p name : str) : str := p ++ "/" ++ name.

Definition prompt_template : str :=
  "You are a helpful AI assistant. Use the following pieces of context to answer the question at the end."
  ++ nl ++ nl ++
  "If you don't know the answer based on the context, just say "
  ++ dq ++
  "I don't have enough information in the provided documents to answer this question."
  ++ dq ++
  " Don't try to make up an answer."
  ++ nl ++ nl ++
  "Context:" ++ nl ++
  "{context}" ++ nl ++ nl ++
  "Question: {question}" ++ nl ++ nl ++
  "Helpful Answer:".

(** The values of config.py for a given installation directory. *)
Definition settings (base_dir : str) : Config := {|
  BASE_DIR := base_dir;
  DATA_DIR := path_join base_dir "data";
  DOCUMENTS_DIR := path_join (path_join base_dir "data") "documents";
  VECTORSTORE_DIR := path_join (path_join base_dir "data") "vectorstore";
  OLLAMA_MODEL := "llama3.2";
  OLLAMA_BASE_URL := "http://localhost:11434";
  EMBEDDING_MODEL := "all-MiniLM-L6-v2";
  CHUNK_SIZE := 1000;
  CHUNK_OVERLAP := 200;
  TOP_K_RESULTS := 4;
  SIMILARITY_THRESHOLD := (5 # 10)%Q;
  COLLECTION_NAME := "document_qa_collection";
  TEMPERATURE := (2 # 10)%Q;
  MAX_TOKENS := 512;
  PROMPT_TEMPLATE := prompt_template
|}.

(** The same configuration with another similarity threshold. *)
Definition with_similarity_threshold (t : Q) (c : Config) : Config := {|
  BASE_DIR := @BASE_DIR c;
  DATA_DIR := @DATA_DIR c;
  DOCUMENTS_DIR := @DOCUMENTS_DIR c;
  VECTORSTORE_DIR := @VECTORSTORE_DIR c;
  OLLAMA_MODEL := @OLLAMA_MODEL c;
  OLLAMA_BASE_URL := @OLLAMA_BASE_URL c;
  EMBEDDING_MODEL := @EMBEDDING_MODEL c;
  CHUNK_SIZE := @CHUNK_SIZE c;
  CHUNK_OVERLAP := @CHUNK_OVERLAP c;
  TOP_K_RESULTS := @TOP_K_RESULTS c;
  SIMILARITY_THRESHOLD := t;
  COLLECTION_NAME := @COLLECTION_NAME c;
  TEMPERATURE := @TEMPERATURE c;
  MAX_TOKENS := @MAX_TOKENS c;
  PROMPT_TEMPLATE := @PROMPT_TEMPLATE c
|}.

End config.

(** * External collaborators *)

(** Constructor arguments of [RecursiveCharacterTextSplitter]
    ([length_function] is [len]). *)
Record RecursiveCharacterTextSplitter := mkSplitter {
  chunk_size : Z;
  chunk_overlap : Z;
  separators : list str
}.

(** Constructor arguments of [DirectoryLoader] ([loader_cls] is
    [PyPDFLoader]). *)
Record DirectoryLoader := mkDirectoryLoader {
  loader_path : str;
  loader_glob : str;
  show_progress : bool
}.

(** Constructor arguments of [HuggingFaceEmbeddings]. *)
Record HuggingFaceEmbeddingsArgs := mkEmbeddingsArgs {
  model_name : str;
  device : str;
  normalize_embeddings : bool
}.

(** Keyword arguments of [OllamaLLM].  A keyword the caller does not pass
    keeps its default [None]; [num_predict] is the keyword that limits the
    length of the generated output. *)
Record OllamaLLM := mkOllamaLLM {
  model : str;
  base_url : str;
  temperature : option Q;
  num_predict : option Z
}.

(** [ChatPromptTemplate.from_template(text)]. *)
Record ChatPromptTemplate := from_template {
  template : str
}.

(** [vectorstore.as_retriever(search_type=..., search_kwargs=...)]: the
    retriever records the store and the search request it will issue. *)
Record VectorStoreRetriever (Chroma : Type) := as_retriever {
  retriever_store : Chroma;
  search_type : str;
  search_kwargs : gmap str value
}.
Arguments as_retriever {Chroma} _ _ _.
Arguments retriever_store {Chroma} _.
Arguments search_type {Chroma} _.
Arguments search_kwargs {Chroma} _.

(** [create_stuff_documents_chain(llm, prompt)]. *)
Record StuffDocumentsChain := create_stuff_documents_chain {
  chain_llm : OllamaLLM;
  chain_prompt : ChatPromptTemplate
}.

(** [create_retrieval_chain(retriever, document_chain)]. *)
Record RetrievalChain (Chroma : Type) := create_retrieval_chain {
  chain_retriever : VectorStoreRetriever Chroma;
  combine_docs_chain : StuffDocumentsChain
}.
Arguments create_retrieval_chain {Chroma} _ _.
Arguments chain_retriever {Chroma} _.
Arguments combine_docs_chain {Chroma} _.

(** The keys of the dict returned by [chain.invoke] that the code reads. *)
Record ChainResponse := mkChainResponse {
  response_answer : str;
  response_context : list Document
}.

(** What the pipeline calls but does not implement.  Every call that
    touches a file, the index or a model server is a computation over
    [World] that may raise. *)
Class Backend := {
  World : Type;
  Embeddings : Type;
  Chroma : Type;
  (** [print(s)] *)
  print : str -> World -> World;
  (** [repr] of a metadata dict, as an f-string renders it *)
  repr_dict : gmap str value -> str;
  (** [HuggingFaceEmbeddings(...)] *)
  HuggingFaceEmbeddings : HuggingFaceEmbeddingsArgs -> M World Embeddings;
  (** [Chroma.from_documents(documents, embedding, collection_name,
      persist_directory)] *)
  Chroma_from_documents :
    list Document -> Embeddings -> str -> option str -> M World Chroma;
  (** [Chroma(collection_name, embedding_function, persist_directory)] *)
  Chroma_open : str -> Embeddings -> str -> M World Chroma;
  (** [vectorstore.similarity_search(query, k=k)] *)
  Chroma_similarity_search : Chroma -> str -> Z -> M World (list Document);
  (** [vectorstore.delete_collection()] *)
  Chroma_delete_collection : Chroma -> M World unit;
  (** [loader.load()] *)
  DirectoryLoader_load : DirectoryLoader -> M World (list Document);
  (** [text_splitter.split_documents(documents)] *)
  split_documents :
    RecursiveCharacterTextSplitter -> list Document -> M World (list Document);
  (** [chain.invoke({"input": question})] *)
  chain_invoke : RetrievalChain Chroma -> str -> M World ChainResponse
}.

Section effects.
Context {be : Backend}.

(** [print] as a computation. *)
Definition say (s : str) : M World unit := fun w => (Return tt, print s w).

End effects.

(** * src/document_loader.py *)

Module DocumentProcessor.
Section DocumentProcessor.
Context {conf : Config} {be : Backend}.

Record t := mk {
  text_splitter : RecursiveCharacterTextSplitter
}.

Definition __init__ : t :=
  {| text_splitter :=
       {| chunk_size := CHUNK_SIZE;
          chunk_overlap := CHUNK_OVERLAP;
          separators := [nl ++ nl; nl; " " : str; "" : str] |} |}.

(** [directory] is [None] or a path. *)
Definition load_all_pdfs (self : t) (directory : option str)
  : M World (list Document) :=
  let directory :=
    match directory with
    | None => DOCUMENTS_DIR
    | Some d => d
    end in
  let loader :=
    {| loader_path := directory;
       loader_glob := "**/*.pdf";
       show_progress := true |} in
  documents <- DirectoryLoader_load loader ;;
  say (nl ++ "Loaded " ++ str_of_int (Z.of_nat (length documents))
          ++ " total pages from " ++ directory) ;;
  ret documents.

(** [for idx, chunk in enumerate(chunks): chunk.metadata["chunk_id"] = idx],
    started at [idx]. *)
Fixpoint add_chunk_ids (idx : Z) (chunks : list Document) : list Document :=
  match chunks with
  | [] => []
  | chunk :: rest =>
      {| page_content := page_content chunk;
         metadata := <[k_chunk_id := VInt idx]> (metadata chunk) |}
      :: add_chunk_ids (idx + 1) rest
  end.

Definition chunk_documents (self : t) (documents : list Document)
  : M World (list Document) :=
  chunks <- split_documents (text_splitter self) documents ;;
  say ("Split into " ++ str_of_int (Z.of_nat (length chunks)) ++ " chunks") ;;
  ret (add_chunk_ids 0 chunks).

Definition process_documents (self : t) (directory : option str)
  : M World (list Document) :=
  say (repeat_str "=" 50) ;;
  say "DOCUMENT PROCESSING PIPELINE" ;;
  say (repeat_str "=" 50) ;;
  documents <- load_all_pdfs self directory ;;
  match documents with
  | [] =>
      raise (ValueError ("No PDF files found in "
                         ++ match directory with
                            | None => DOCUMENTS_DIR
                            | Some [] => DOCUMENTS_DIR
                            | Some d => d
                            end))
  | _ :: _ =>
      chunks <- chunk_documents self documents ;;
      say (nl ++ repeat_str "=" 50) ;;
      say "SAMPLE CHUNK:" ;;
      say (repeat_str "=" 50) ;;
      chunk0 <- first chunks ;;
      say ("Content: " ++ slice_to 200 (page_content chunk0) ++ "...") ;;
      chunk0' <- first chunks ;;
      say ("Metadata: " ++ repr_dict (metadata chunk0')) ;;
      say (repeat_str "=" 50 ++ nl) ;;
      ret chunks
  end.

(** The world once the pipeline's banner is on the console, which is where
    [process_documents] calls [load_all_pdfs]. *)
Definition banner_printed (w : World) : World :=
  print (repeat_str "=" 50)
    (print "DOCUMENT PROCESSING PIPELINE" (print (repeat_str "=" 50) w)).

End DocumentProcessor.
End DocumentProcessor.

(** * src/vectorstore.py *)

Module VectorStoreManager.
Section VectorStoreManager.
Context {conf : Config} {be : Backend}.

Record t := mk {
  embeddings : Embeddings;
  vectorstore : option Chroma
}.

Definition __init__ : M World t :=
  say "Loading embedding model..." ;;
  emb <- HuggingFaceEmbeddings
           {| model_name := EMBEDDING_MODEL;
              device := "cpu";
              normalize_embeddings := true |} ;;
  say (check_mark ++ " Embedding model loaded: " ++ EMBEDDING_MODEL) ;;
  ret {| embeddings := emb; vectorstore := None |}.

(** Returns the manager after the assignment to [self.vectorstore],
    with the store. *)
Definition create_vectorstore (self : t) (documents : list Document)
    (persist : bool) : M World (t * Chroma) :=
  say (nl ++ "Creating vector store with "
          ++ str_of_int (Z.of_nat (length documents)) ++ " documents...") ;;
  vs <- Chroma_from_documents documents (embeddings self) COLLECTION_NAME
          (if persist then Some VECTORSTORE_DIR else None) ;;
  say (check_mark ++ " Vector store created and saved to " ++ VECTORSTORE_DIR) ;;
  ret ({| embeddings := embeddings self; vectorstore := Some vs |}, vs).

Definition load_vectorstore (self : t) : M World (t * Chroma) :=
  say "Loading existing vector store..." ;;
  vs <- Chroma_open COLLECTION_NAME (embeddings self) VECTORSTORE_DIR ;;
  say (check_mark ++ " Vector store loaded from " ++ VECTORSTORE_DIR) ;;
  ret ({| embeddings := embeddings self; vectorstore := Some vs |}, vs).

Definition get_retriever (self : t) (k : Z)
  : M World (VectorStoreRetriever Chroma) :=
  match vectorstore self with
  | None =>
      raise (ValueError
               "Vector store not initialized. Call load_vectorstore() first.")
  | Some vs =>
      let retriever :=
        as_retriever vs "similarity" {[ ("k" : str) := VInt k ]} in
      ret retriever
  end.

Definition similarity_search (self : t) (query : str) (k : Z)
  : M World (list Document) :=
  match vectorstore self with
  | None => raise (ValueError "Vector store not initialized.")
  | Some vs =>
      results <- Chroma_similarity_search vs query k ;;
      ret results
  end.

Definition delete_collection (self : t) : M World unit :=
  match vectorstore self with
  | Some vs =>
      Chroma_delete_collection vs ;;
      say (check_mark ++ " Collection '" ++ COLLECTION_NAME ++ "' deleted")
  | None => ret tt
  end.

End VectorStoreManager.
End VectorStoreManager.


(** * src/retrieval_chain.py *)

(** The dict returned by [RAGChain.query]. *)
Record QueryResult := mkQueryResult {
  answer : str;
  context : list Document;
  question : str
}.

Module RAGChain.
Section RAGChain.
Context {conf : Config} {be : Backend}.

Record t := mk {
  vectorstore_manager : VectorStoreManager.t;
  llm : OllamaLLM;
  prompt : ChatPromptTemplate;
  chain : RetrievalChain Chroma
}.

(** Reads [self.vectorstore_manager], [self.llm] and [self.prompt], which
    [__init__] has set before the call. *)
Definition _build_chain (vectorstore_manager : VectorStoreManager.t)
    (llm : OllamaLLM) (prompt : ChatPromptTemplate)
  : M World (RetrievalChain Chroma) :=
  retriever <- VectorStoreManager.get_retriever vectorstore_manager
                 TOP_K_RESULTS ;;
  let document_chain := create_stuff_documents_chain llm prompt in
  let retrieval_chain := create_retrieval_chain retriever document_chain in
  ret retrieval_chain.

Definition __init__ (vectorstore_manager : VectorStoreManager.t) : M World t :=
  say ("Connecting to Ollama model: " ++ OLLAMA_MODEL ++ "...") ;;
  let llm :=
    {| model := OLLAMA_MODEL;
       base_url := OLLAMA_BASE_URL;
       temperature := Some TEMPERATURE;
       num_predict := None |} in
  say (check_mark ++ " LLM connected") ;;
  let prompt := from_template PROMPT_TEMPLATE in
  chain <- _build_chain vectorstore_manager llm prompt ;;
  ret {| vectorstore_manager := vectorstore_manager;
         llm := llm;
         prompt := prompt;
         chain := chain |}.

Definition query (self : t) (question : str) : M World QueryResult :=
  response <- chain_invoke (chain self) question ;;
  ret {| answer := response_answer response;
         context := response_context response;
         question := question |}.

(** One entry of the source list, for the passage numbered [i]. *)
Definition source_entry (i : Z) (doc : Document) : str :=
  let source_file := default (VStr "Unknown") (metadata doc !! k_source) in
  let page := default (VStr "N/A") (metadata doc !! k_page) in
  let content_preview := slice_to 150 (page_content doc) in
  "[" ++ str_of_int i ++ "] File: " ++ str_of source_file
      ++ " | Page: " ++ str_of page ++ nl
      ++ "    Content: " ++ content_preview ++ "..." ++ nl.

(** [for i, doc in enumerate(context, i): sources.append(...)]. *)
Fixpoint format_sources_loop (i : Z) (context : list Document)
    (sources : list str) : list str :=
  match context with
  | [] => sources
  | doc :: rest =>
      format_sources_loop (i + 1) rest (sources ++ [source_entry i doc])
  end.

Definition format_sources (context : list Document) : str :=
  match context with
  | [] => "No sources found."
  | _ :: _ => join nl (format_sources_loop 1 context [])
  end.

End RAGChain.
End RAGChain.

(** * app.py *)

Module app.
Section app.
Context {conf : Config} {be : Backend}.

(** The two methods of the global [rag_chain] that the handler calls. *)
Record rag_chain_object := mk_rag_chain {
  query : str -> M World QueryResult;
  format_sources : list Document -> M World str
}.

(** The global [rag_chain] bound to a [RAGChain] instance. *)
Definition rag_chain (rc : RAGChain.t) : rag_chain_object :=
  {| query := RAGChain.query rc;
     format_sources := fun context => ret (RAGChain.format_sources context) |}.

(** Module initialisation; [None] is [exit(1)]. *)
Definition initialize : M World (option RAGChain.t) :=
  say "Initializing RAG system..." ;;
  try_except
    (vs_manager <- VectorStoreManager.__init__ ;;
     loaded <- VectorStoreManager.load_vectorstore vs_manager ;;
     rc <- RAGChain.__init__ (fst loaded) ;;
     say (check_mark ++ " RAG system ready!" ++ nl) ;;
     ret (Some rc))
    (fun e =>
       say (cross_mark ++ " Error loading system: " ++ str_of_exn e) ;;
       say "Make sure you've run: python ingest.py" ;;
       ret None).

Definition answer_question (rag_chain : rag_chain_object) (question : str)
    (show_sources : bool) : M World (str * str) :=
  if negb (truthy (strip question)) then
    ret ("Please enter a question." : str, "" : str)
  else
    try_except
      (result <- query rag_chain question ;;
       let answer := answer result in
       sources <-
         (if show_sources then format_sources rag_chain (context result)
          else ret ("Sources hidden (enable 'Show Sources' to view)" : str)) ;;
       ret (answer, sources))
      (fun e => ret ("Error: " ++ str_of_exn e, "" : str)).

End app.
End app.

(** * ingest.py and src/utils.py *)

(** [s.center(width, fill)], with CPython's split of the padding. *)
Definition center (s : str) (width : Z) (fill : str) : str :=
  let marg := width - Z.of_nat (length s) in
  if marg <=? 0 then s
  else
    let left := marg / 2 + Z.land (Z.land marg width) 1 in
    repeat_str fill (Z.to_nat left) ++ s
    ++ repeat_str fill (Z.to_nat (marg - left)).

(** What ingest.py and src/utils.py reach beside the [Backend].  Each
    of these can fail: a standard output that cannot encode a character, an
    attribute the store does not have, a module that cannot be imported,
    the file system, the HTTP request. *)
Class Host {be : Backend} := {
  (** [print(s)] by a script; raises when the output cannot encode [s] *)
  emit : str -> M World unit;
  (** [vectorstore._persist_directory], as an f-string renders it *)
  persist_directory : Chroma -> M World str;
  (** [import requests], as a statement of a function body *)
  import_requests : M World unit;
  (** [from src.config import DOCUMENTS_DIR, VECTORSTORE_DIR,
      OLLAMA_BASE_URL], as a statement of a function body *)
  import_config : M World unit;
  (** [Path(directory).glob("**/*.pdf")], each path as [str(p)] *)
  glob_pdf : str -> M World (list str);
  (** [path.exists()] *)
  path_exists : str -> M World bool;
  (** [requests.get(url, timeout=t).status_code] *)
  requests_get_status : str -> Z -> M World Z
}.

Module ingest.
Section ingest.
Context {conf : Config} {be : Backend} {host : Host}.

(** The [try] statement of [main].  It returns the exit status of the
    script: 0 when the block runs to its end, 1 for [sys.exit(1)].
    [SystemExit] is not an [Exception], so the exit inside the [try] passes
    the handler, while a failing [print] there does reach it. *)
Definition attempt : M World Z :=
  try_except
    (let processor := DocumentProcessor.__init__ in
     chunks <- DocumentProcessor.process_documents processor None ;;
     match chunks with
     | [] =>
         emit (cross_mark ++ " No documents found. Please add PDF files to:"
                 ++ " " ++ DOCUMENTS_DIR) ;;
         ret 1
     | _ :: _ =>
         vs_manager <- VectorStoreManager.__init__ ;;
         created <- VectorStoreManager.create_vectorstore vs_manager chunks
                      true ;;
         emit (nl ++ repeat_str "=" 60) ;;
         emit (center (" " ++ check_mark ++ " INGESTION COMPLETE ") 60 "=") ;;
         emit (repeat_str "=" 60) ;;
         emit (nl ++ "Indexed " ++ str_of_int (Z.of_nat (length chunks))
                 ++ " document chunks") ;;
         saved_to <- persist_directory (snd created) ;;
         emit ("Vector store saved to: " ++ saved_to) ;;
         emit (nl ++ "You can now run: python app.py") ;;
         ret 0
     end)
    (fun e =>
       emit (nl ++ cross_mark ++ " ERROR: " ++ str_of_exn e) ;;
       ret 1).

Definition main : M World Z :=
  emit (nl ++ repeat_str "=" 60) ;;
  emit (center " DOCUMENT INGESTION PIPELINE " 60 "=") ;;
  emit (repeat_str "=" 60 ++ nl) ;;
  attempt.

(** The three lines [main] prints before its [try]. *)
Definition opening : M World unit :=
  emit (nl ++ repeat_str "=" 60) ;;
  emit (center " DOCUMENT INGESTION PIPELINE " 60 "=") ;;
  emit (repeat_str "=" 60 ++ nl).

(** What the handler of [main] does with an exception. *)
Definition report (e : exn) : M World Z :=
  emit (nl ++ cross_mark ++ " ERROR: " ++ str_of_exn e) ;;
  ret 1.

End ingest.
End ingest.

Module utils.
Section utils.
Context {conf : Config} {be : Backend} {host : Host}.

Definition count_pdf_files (directory : str) : M World Z :=
  paths <- glob_pdf directory ;;
  ret (Z.of_nat (length paths)).

Definition get_pdf_files (directory : str) : M World (list str) :=
  paths <- glob_pdf directory ;;
  ret paths.

(** The import comes before the [try]; the bare [except:] turns every
    failure of the request into [False]. *)
Definition check_ollama_running : M World bool :=
  import_requests ;;
  try_except
    (status <- requests_get_status "http://localhost:11434/api/tags" 2 ;;
     ret (status =? 200))
    (fun _ => ret false).

Definition validate_environment : M World (list str) :=
  import_config ;;
  let issues : list str := [] in
  found <- path_exists DOCUMENTS_DIR ;;
  let issues :=
    if negb found
    then issues ++ ["Documents directory missing: " ++ DOCUMENTS_DIR]
    else issues in
  pdf_count <- count_pdf_files DOCUMENTS_DIR ;;
  let issues :=
    if pdf_count =? 0
    then issues ++ ["No PDF files found in " ++ DOCUMENTS_DIR]
    else issues in
  running <- check_ollama_running ;;
  let issues :=
    if negb running
    then issues ++ ["Ollama not running. Start it with: ollama serve" : str]
    else issues in
  ret issues.

End utils.
End utils.

(** * What the pipeline expects of its pages and of the splitter *)


Section splitter_contract.
Context {be : Backend}.


End splitter_contract.

(** * An in-memory backend

    Stand-ins for the collaborators, used to run the pipeline on concrete
    inputs.  They follow the library conventions the examples depend on:
    [PyPDFLoader] yields one [Document] per page with metadata
    [{"source": path, "page": i}], [i] counted by [enumerate] from 0;
    the text splitter copies a page's metadata to each of its chunks and
    produces no chunk for a page whose text is blank. *)

Module memory.

Record world := mk_world {
  (** everything printed so far, oldest first *)
  console : list str;
  (** the PDF files on disk: path and the text of each page *)
  pdf_files : list (str * list str);
  (** the persisted collections *)
  collections : list (str * list Document);
  (** is the Ollama server reachable *)
  ollama_up : bool;
  (** what the model answers *)
  completion : str
}.

Definition set_console (c : list str) (w : world) : world :=
  {| console := c; pdf_files := pdf_files w; collections := collections w;
     ollama_up := ollama_up w; completion := completion w |}.

Definition set_collections (cs : list (str * list Document)) (w : world)
  : world :=
  {| console := console w; pdf_files := pdf_files w; collections := cs;
     ollama_up := ollama_up w; completion := completion w |}.

Definition str_eqb (a b : str) : bool := bool_decide (a = b).

(** Pages of one PDF, numbered the way [enumerate(pdf_reader.pages)] does,
    from [i]. *)
Fixpoint pages_from (path : str) (i : Z) (pages : list str) : list Document :=
  match pages with
  | [] => []
  | text :: rest =>
      {| page_content := text;
         metadata := <[k_source := VStr path]> {[ k_page := VInt i ]} |}
      :: pages_from path (i + 1) rest
  end.

Definition load (loader : DirectoryLoader) : M world (list Document) :=
  fun w =>
    (Return
       (concat
          (map (fun f => pages_from (fst f) 0 (snd f))
             (filter (fun f => startswith (loader_path loader) (fst f) = true)
                (pdf_files w)))),
     w).

(** Texts of at most [chunk_size] characters come back as one stripped
    chunk, blank texts as none; longer texts are outside the stand-in. *)
Definition split_text (ts : RecursiveCharacterTextSplitter) (text : str)
  : result (list str) :=
  if (chunk_size ts <? Z.of_nat (length text))%Z then
    Raise (OtherError "NotImplementedError" "text longer than chunk_size")
  else
    match strip text with
    | [] => Return []
    | c :: rest => Return [c :: rest]
    end.

Fixpoint split (ts : RecursiveCharacterTextSplitter) (documents : list Document)
  : result (list Document) :=
  match documents with
  | [] => Return []
  | doc :: rest =>
      match split_text ts (page_content doc), split ts rest with
      | Return pieces, Return more =>
          Return (map (fun piece => {| page_content := piece;
                                        metadata := metadata doc |}) pieces
                  ++ more)
      | Raise e, _ => Raise e
      | _, Raise e => Raise e
      end
  end.

Definition lookup_collection (name : str) (cs : list (str * list Document))
  : list Document :=
  match filter (fun c => str_eqb (fst c) name = true) cs with
  | [] => []
  | c :: _ => snd c
  end.

Definition drop_collection (name : str) (cs : list (str * list Document))
  : list (str * list Document) :=
  filter (fun c => str_eqb (fst c) name = false) cs.

(** A store handle is the name of its collection. *)
Definition from_documents (documents : list Document) (_ : unit)
    (name : str) (_ : option str) : M world str :=
  fun w =>
    (Return name,
     set_collections ((name, documents) :: drop_collection name (collections w))
       w).

Definition open (name : str) (_ : unit) (_ : str) : M world str :=
  fun w => (Return name, w).

(** Similarity of a passage to a query: 1 when the passage contains the
    query, 0 otherwise. *)
Definition score (query : str) (doc : Document) : Q :=
  if in_str query (page_content doc) then 1%Q else 0%Q.

(** Passages by decreasing score, insertion order among equals. *)
Definition ranked (query : str) (docs : list Document) : list Document :=
  filter (fun doc => in_str query (page_content doc) = true) docs
  ++ filter (fun doc => in_str query (page_content doc) = false) docs.

(** The [k] best-ranked passages of the collection. *)
Definition search (store : str) (query : str) (k : Z)
  : M world (list Document) :=
  fun w =>
    (Return (take (Z.to_nat k)
               (ranked query (lookup_collection store (collections w)))),
     w).

Definition delete (store : str) : M world unit :=
  fun w => (Return tt, set_collections (drop_collection store (collections w)) w).

Definition render_item (kv : str * value) : str :=
  fst kv ++ ": " ++ str_of (snd kv).

Definition render_dict (m : gmap str value) : str :=
  "{" ++ join ", " (map render_item (map_to_list m)) ++ "}".

(** Retrieves with the chain's retriever, then asks the model. *)
Definition invoke (chain : RetrievalChain str) (question : str)
  : M world ChainResponse :=
  fun w =>
    let k :=
      match search_kwargs (chain_retriever chain) !! ("k" : str) with
      | Some (VInt k) => k
      | _ => 4
      end in
    let docs :=
      take (Z.to_nat k)
        (ranked question
           (lookup_collection (retriever_store (chain_retriever chain))
              (collections w))) in
    if ollama_up w then
      (Return {| response_answer := completion w; response_context := docs |}, w)
    else
      (Raise (OtherError "ConnectionError" "Ollama server is not reachable"), w).

Definition backend : Backend := {|
  World := world;
  Embeddings := unit;
  Chroma := str;
  print := fun s w => set_console (console w ++ [s]) w;
  repr_dict := render_dict;
  HuggingFaceEmbeddings := fun _ => ret tt;
  Chroma_from_documents := from_documents;
  Chroma_open := open;
  Chroma_similarity_search := search;
  Chroma_delete_collection := delete;
  DirectoryLoader_load := load;
  split_documents := fun ts documents w => (split ts documents, w);
  chain_invoke := invoke
|}.

(** A machine with nothing on it. *)
Definition empty_world : world :=
  {| console := []; pdf_files := []; collections := [];
     ollama_up := true; completion := "The sky is blue." |}.

(** One single-page PDF. *)
Definition one_pdf (path text : str) : world :=
  {| console := []; pdf_files := [(path, [text])]; collections := [];
     ollama_up := true; completion := "The sky is blue." |}.

(** The same machine with the model server down. *)
Definition ollama_down (w : world) : world :=
  {| console := console w; pdf_files := pdf_files w;
     collections := collections w; ollama_up := false;
     completion := completion w |}.

(** Two passages, one about the sky and one that is not. *)
Definition sky_passage : Document :=
  {| page_content := "The sky is blue.";
     metadata := <[k_source := VStr "/docs/sky.pdf"]> {[ k_page := VInt 0 ]} |}.

Definition grass_passage : Document :=
  {| page_content := "Grass is green.";
     metadata := <[k_source := VStr "/docs/grass.pdf"]> {[ k_page := VInt 0 ]} |}.

(** A machine whose index holds both passages. *)
Definition indexed_world : world :=
  {| console := []; pdf_files := [];
     collections := [("document_qa_collection" : str,
                      [grass_passage; sky_passage])];
     ollama_up := true; completion := "The sky is blue." |}.

(** The configuration of config.py installed under [/srv/rag]. *)
Definition cfg : Config := config.settings "/srv/rag".

#[local] Existing Instance backend.
#[local] Existing Instance cfg.

(** A manager as its constructor leaves it. *)
Definition fresh_manager : VectorStoreManager.t :=
  {| VectorStoreManager.embeddings := tt;
     VectorStoreManager.vectorstore := None |}.

(** A manager on which [load_vectorstore] has run. *)
Definition loaded_manager : VectorStoreManager.t :=
  {| VectorStoreManager.embeddings := tt;
     VectorStoreManager.vectorstore := Some COLLECTION_NAME |}.

(** The chain [RAGChain(vs_manager)] builds over it. *)
Definition served_chain : RAGChain.t :=
  let llm :=
    {| model := OLLAMA_MODEL; base_url := OLLAMA_BASE_URL;
       temperature := Some TEMPERATURE; num_predict := None |} in
  let prompt := from_template PROMPT_TEMPLATE in
  {| RAGChain.vectorstore_manager := loaded_manager;
     RAGChain.llm := llm;
     RAGChain.prompt := prompt;
     RAGChain.chain :=
       create_retrieval_chain
         (as_retriever COLLECTION_NAME "similarity"
            {[ ("k" : str) := VInt TOP_K_RESULTS ]})
         (create_stuff_documents_chain llm prompt) |}.

(** A [rag_chain] whose methods write to the console when they are reached. *)
Definition traced_chain : app.rag_chain_object :=
  {| app.query := fun _ =>
       say "query called" ;;
       raise (OtherError "RuntimeError" "query reached");
     app.format_sources := fun _ =>
       say "format_sources called" ;;
       raise (OtherError "RuntimeError" "format_sources reached") |}.

(** A [rag_chain] whose query answers and whose formatter fails. *)
Definition failing_formatter : app.rag_chain_object :=
  {| app.query := RAGChain.query served_chain;
     app.format_sources := fun _ =>
       raise (OtherError "AttributeError"
                "'str' object has no attribute 'metadata'") |}.

End memory.

(** * The host of the in-memory backend *)

Module fixtures.

#[local] Existing Instance memory.backend.
#[local] Existing Instance memory.cfg.

(** The file system is the list of PDF files; the directory exists when
    a file lies under it; the server answers 200 when it is up and refuses
    the connection otherwise; the console takes every character and both
    modules can be imported. *)
Definition host : Host := {|
  emit := fun s w => (Return tt, memory.set_console (memory.console w ++ [s]) w);
  persist_directory := fun _ => ret VECTORSTORE_DIR;
  import_requests := ret tt;
  import_config := ret tt;
  glob_pdf := fun directory w =>
    (Return (map fst (filter (fun f => startswith directory (fst f) = true)
                        (memory.pdf_files w))), w);
  path_exists := fun directory w =>
    (Return (existsb (fun f => startswith directory (fst f))
               (memory.pdf_files w)), w);
  requests_get_status := fun _ _ w =>
    if memory.ollama_up w then (Return 200, w)
    else (Raise (OtherError "ConnectionError" "connection refused"), w)
|}.

(** The same host behind an ASCII-only standard output, and without the
    [requests] package. *)
Definition ascii_host : Host := {|
  emit := fun s w =>
    if forallb (fun c => (c <? 128)%N) s
    then (Return tt, memory.set_console (memory.console w ++ [s]) w)
    else (Raise (OtherError "UnicodeEncodeError"
                   "'ascii' codec can't encode character"), w);
  persist_directory := fun _ => ret VECTORSTORE_DIR;
  import_requests :=
    raise (OtherError "ModuleNotFoundError" "No module named 'requests'");
  import_config := ret tt;
  glob_pdf := @glob_pdf _ host;
  path_exists := @path_exists _ host;
  requests_get_status := @requests_get_status _ host
|}.

(** A machine with one PDF in the configured documents directory. *)
Definition ready_world : memory.world :=
  memory.one_pdf (config.path_join DOCUMENTS_DIR "sky.pdf") "The sky is blue.".




End fixtures.

(** * Properties *)

(** Unfolds the monad so that a computation shows its calls. *)
Ltac run_m := unfold bind, ret, raise, try_except, say, first in *.

(** ** Strings *)

Lemma lstrip_blank (s : str) : forallb isspace s = true -> lstrip s = [].
Proof.
  induction s as [|c s IH]; simpl; [reflexivity|].
  intros Hs. apply andb_true_iff in Hs as [Hc Hs].
  rewrite Hc. apply IH, Hs.
Qed.

Lemma strip_blank (s : str) : forallb isspace s = true -> strip s = [].
Proof.
  intros Hs. unfold strip, rstrip. rewrite (lstrip_blank s Hs). reflexivity.
Qed.

Lemma lstrip_nil_blank (s : str) : lstrip s = [] -> forallb isspace s = true.
Proof.
  induction s as [|c s IH]; simpl; [reflexivity|].
  destruct (isspace c); [exact IH | discriminate].
Qed.

Lemma lstrip_suffix (s : str) :
  exists pre, s = pre ++ lstrip s /\ forallb isspace pre = true.
Proof.
  induction s as [|c s [pre [Hs Hpre]]]; simpl.
  - exists []. split; reflexivity.
  - destruct (isspace c) eqn:Hc.
    + exists (c :: pre). simpl. rewrite Hc, Hpre. split; [congruence | reflexivity].
    + exists []. split; reflexivity.
Qed.

(** [strip] leaves nothing exactly when every character is whitespace. *)
Lemma strip_nil_iff (s : str) : strip s = [] <-> forallb isspace s = true.
Proof.
  split; [|apply strip_blank].
  unfold strip, rstrip. intros Hs.
  assert (Hrev : lstrip (rev (lstrip s)) = []).
  { rewrite <- (rev_involutive (lstrip (rev (lstrip s)))), Hs. reflexivity. }
  apply lstrip_nil_blank in Hrev.
  rewrite forallb_forall in Hrev.
  destruct (lstrip_suffix s) as [pre [Heq Hpre]].
  rewrite Heq, forallb_app, Hpre. simpl.
  apply forallb_forall. intros c Hc. apply Hrev, in_rev.
  rewrite rev_involutive. exact Hc.
Qed.

Lemma startswith_app (p s : str) : startswith p (p ++ s) = true.
Proof.
  induction p as [|a p IH]; simpl; [reflexivity|].
  rewrite N.eqb_refl. exact IH.
Qed.

Lemma in_str_startswith (sub s : str) :
  startswith sub s = true -> in_str sub s = true.
Proof.
  intros Hp. destruct s; simpl; rewrite Hp; reflexivity.
Qed.

(** A string contains each of the pieces it is assembled from. *)
Lemma in_str_app (sub pre post : str) : in_str sub (pre ++ sub ++ post) = true.
Proof.
  induction pre as [|c pre IH].
  - rewrite app_nil_l. apply in_str_startswith, startswith_app.
  - change ((c :: pre) ++ sub ++ post) with (c :: (pre ++ sub ++ post)).
    simpl. rewrite IH. apply orb_true_r.
Qed.

(** ** The front end (app.py) *)

Section front_end.
Context {be : Backend}.

(** A question that is not blank goes to the pipeline inside the [try]. *)
Lemma answer_question_asked (rag_chain : app.rag_chain_object)
    (question : str) (show_sources : bool) :
  strip question <> [] ->
  app.answer_question rag_chain question show_sources =
  try_except
    (result <- app.query rag_chain question ;;
     sources <-
       (if show_sources
        then app.format_sources rag_chain (context result)
        else ret ("Sources hidden (enable 'Show Sources' to view)" : str)) ;;
     ret (answer result, sources))
    (fun e => ret ("Error: " ++ str_of_exn e, "" : str)).
Proof.
  intros Hq. unfold app.answer_question.
  destruct (strip question); [contradiction | reflexivity].
Qed.

(** C4: for every question made of whitespace only (the empty question
    included), [answer_question] returns exactly
    [("Please enter a question.", "")], whatever the [rag_chain] is, and
    leaves the world as it found it: neither [query] nor the retriever nor
    any backend is reached. *)
Theorem answer_question_blank (rag_chain : app.rag_chain_object)
    (question : str) (show_sources : bool) (w : World) :
  forallb isspace question = true ->
  app.answer_question rag_chain question show_sources w
  = (Return ("Please enter a question." : str, "" : str), w).
Proof.
  intros Hq. unfold app.answer_question.
  rewrite (strip_blank question Hq). reflexivity.
Qed.

(** The handler returns a pair on every input. *)
Lemma answer_question_returns (rag_chain : app.rag_chain_object)
    (question : str) (show_sources : bool) (w : World) :
  exists out w',
    app.answer_question rag_chain question show_sources w = (Return out, w').
Proof.
  unfold app.answer_question.
  destruct (negb (truthy (strip question))); [run_m; eauto|].
  run_m.
  destruct (app.query rag_chain question w) as [[r|e] w1]; [|eauto].
  destruct show_sources; [|eauto].
  destruct (app.format_sources rag_chain (context r) w1) as [[s|e] w2]; eauto.
Qed.

(** C1: for every question with text, an exception [e] raised by
    [rag_chain.query], or by [rag_chain.format_sources] on the retrieved
    context, is caught: [answer_question] returns
    [("Error: " + str(e), "")].  The handler ends with a returned pair on
    every input, so no failure of a query leaves it as an exception. *)
Theorem answer_question_catches (rag_chain : app.rag_chain_object)
    (question : str) (show_sources : bool) (w : World) :
  strip question <> [] ->
  (forall e w',
      app.query rag_chain question w = (Raise e, w') ->
      app.answer_question rag_chain question show_sources w
      = (Return ("Error: " ++ str_of_exn e, "" : str), w'))
  /\ (forall r e w' w'',
      app.query rag_chain question w = (Return r, w') ->
      show_sources = true ->
      app.format_sources rag_chain (context r) w' = (Raise e, w'') ->
      app.answer_question rag_chain question show_sources w
      = (Return ("Error: " ++ str_of_exn e, "" : str), w''))
  /\ (exists out w',
      app.answer_question rag_chain question show_sources w
      = (Return out, w')).
Proof.
  intros Hq. rewrite (answer_question_asked _ _ _ Hq).
  split; [|split].
  - intros e w' Hquery. run_m. rewrite Hquery. reflexivity.
  - intros r e w' w'' Hquery -> Hformat. run_m.
    rewrite Hquery, Hformat. reflexivity.
  - rewrite <- (answer_question_asked _ _ _ Hq).
    apply answer_question_returns.
Qed.


End front_end.

(** A blank question with a [rag_chain] that would write to the console if
    it were reached: nothing is written. *)
Lemma answer_question_blank_witness :
  forallb isspace ([32; 9; 10; 8195]%N : str) = true
  /\ @app.answer_question memory.backend memory.traced_chain
       [32; 9; 10; 8195]%N true memory.empty_world
     = (Return ("Please enter a question." : str, "" : str),
        memory.empty_world).
Proof.
  split; [reflexivity|].
  apply (@answer_question_blank memory.backend). reflexivity.
Defined.

(** The model server is down: the handler answers with the error text. *)
Lemma answer_question_catches_witness :
  strip ("What color is the sky?" : str) <> []
  /\ @app.answer_question memory.backend (app.rag_chain memory.served_chain)
       "What color is the sky?" true (memory.ollama_down memory.empty_world)
     = (Return ("Error: Ollama server is not reachable" : str, "" : str),
        memory.ollama_down memory.empty_world)
  /\ @app.answer_question memory.backend memory.failing_formatter
       "What color is the sky?" true memory.empty_world
     = (Return ("Error: 'str' object has no attribute 'metadata'" : str,
                "" : str),
        memory.empty_world).
Proof.
  assert (Hq : strip ("What color is the sky?" : str) <> [])
    by (vm_compute; discriminate).
  split; [exact Hq|]. split.
  - apply (proj1 (@answer_question_catches memory.backend
                    (app.rag_chain memory.served_chain) _ true
                    (memory.ollama_down memory.empty_world) Hq)
             (OtherError "ConnectionError" "Ollama server is not reachable")).
    reflexivity.
  - apply (proj1 (proj2 (@answer_question_catches memory.backend
                           memory.failing_formatter _ true
                           memory.empty_world Hq))
             {| answer := "The sky is blue."; context := [];
                question := "What color is the sky?" |}
             (OtherError "AttributeError"
                "'str' object has no attribute 'metadata'")
             memory.empty_world memory.empty_world);
      reflexivity.
Defined.



(** ** The vector store manager (src/vectorstore.py) *)

Section vector_store.
Context {conf : Config} {be : Backend}.

(** The constructor leaves [self.vectorstore] at [None]. *)
Lemma init_vectorstore_none (w : World) (self : VectorStoreManager.t)
    (w' : World) :
  VectorStoreManager.__init__ w = (Return self, w') ->
  VectorStoreManager.vectorstore self = None.
Proof.
  unfold VectorStoreManager.__init__. run_m.
  destruct (HuggingFaceEmbeddings _ _) as [[emb|e] w1]; [|discriminate].
  intros [= <- _]. reflexivity.
Qed.

(** After [load_vectorstore] or [create_vectorstore] the store is set. *)
Lemma load_vectorstore_some (self : VectorStoreManager.t) (w : World)
    (self' : VectorStoreManager.t) (vs : Chroma) (w' : World) :
  VectorStoreManager.load_vectorstore self w = (Return (self', vs), w') ->
  VectorStoreManager.vectorstore self' = Some vs.
Proof.
  unfold VectorStoreManager.load_vectorstore. run_m.
  destruct (Chroma_open _ _ _ _) as [[vs1|e] w1]; [|discriminate].
  intros [= <- <- _]. reflexivity.
Qed.

Lemma create_vectorstore_some (self : VectorStoreManager.t)
    (documents : list Document) (persist : bool) (w : World)
    (self' : VectorStoreManager.t) (vs : Chroma) (w' : World) :
  VectorStoreManager.create_vectorstore self documents persist w
  = (Return (self', vs), w') ->
  VectorStoreManager.vectorstore self' = Some vs.
Proof.
  unfold VectorStoreManager.create_vectorstore. run_m.
  destruct (Chroma_from_documents _ _ _ _ _) as [[vs1|e] w1]; [|discriminate].
  intros [= <- <- _]. reflexivity.
Qed.

(** C2: on a freshly constructed manager, before [create_vectorstore] or
    [load_vectorstore] has run, [get_retriever] and [similarity_search]
    both raise the not-initialized [ValueError], for every query and [k],
    and return no result. *)
Theorem uninitialized_store_refuses (w : World)
    (self : VectorStoreManager.t) (w' : World) :
  VectorStoreManager.__init__ w = (Return self, w') ->
  forall (query : str) (k : Z) (w1 : World),
    VectorStoreManager.get_retriever self k w1
    = (Raise (ValueError
                "Vector store not initialized. Call load_vectorstore() first."),
       w1)
    /\ VectorStoreManager.similarity_search self query k w1
       = (Raise (ValueError "Vector store not initialized."), w1).
Proof.
  intros Hinit query k w1.
  unfold VectorStoreManager.get_retriever, VectorStoreManager.similarity_search.
  rewrite (init_vectorstore_none _ _ _ Hinit). split; reflexivity.
Qed.

(** C9: on a manager whose store was never initialised,
    [delete_collection] returns normally, prints nothing and changes
    nothing in the world, while [get_retriever] and [similarity_search]
    raise in that same state. *)
Theorem delete_collection_uninitialized (self : VectorStoreManager.t)
    (w : World) :
  VectorStoreManager.vectorstore self = None ->
  VectorStoreManager.delete_collection self w = (Return tt, w)
  /\ (forall k, exists e,
         VectorStoreManager.get_retriever self k w = (Raise e, w))
  /\ (forall query k, exists e,
         VectorStoreManager.similarity_search self query k w = (Raise e, w)).
Proof.
  intros Hnone.
  unfold VectorStoreManager.delete_collection,
    VectorStoreManager.get_retriever, VectorStoreManager.similarity_search.
  rewrite Hnone. repeat split; intros; eexists; reflexivity.
Qed.

(** With a store, the call reaches Chroma and announces the deletion. *)
Lemma delete_collection_initialized (e : Embeddings) (vs : Chroma) (w : World) :
  VectorStoreManager.delete_collection
    {| VectorStoreManager.embeddings := e;
       VectorStoreManager.vectorstore := Some vs |} w
  = match Chroma_delete_collection vs w with
    | (Return _, w') =>
        (Return tt,
         print (check_mark ++ " Collection '" ++ COLLECTION_NAME ++ "' deleted")
           w')
    | (Raise err, w') => (Raise err, w')
    end.
Proof.
  unfold VectorStoreManager.delete_collection. run_m. simpl.
  destruct (Chroma_delete_collection vs w) as [[[]|err] w']; reflexivity.
Qed.

(** C6: the similarity threshold plays no part in retrieval.  With a
    store, [get_retriever] builds a plain ["similarity"] retriever whose
    only search argument is [k] (no score threshold), and
    [similarity_search] hands back what Chroma's top-[k] search returns,
    with nothing filtered out; the chain that serves queries is the same
    for every value of [SIMILARITY_THRESHOLD]. *)
Theorem similarity_threshold_unused (threshold : Q) (e : Embeddings)
    (vs : Chroma) (query : str) (k : Z) (w : World) :
  let self := {| VectorStoreManager.embeddings := e;
                 VectorStoreManager.vectorstore := Some vs |} in
  VectorStoreManager.get_retriever self k w
  = (Return (as_retriever vs "similarity" {[ ("k" : str) := VInt k ]}), w)
  /\ ({[ ("k" : str) := VInt k ]} : gmap str value)
       !! ("score_threshold" : str) = None
  /\ VectorStoreManager.similarity_search self query k w
     = Chroma_similarity_search vs query k w
  /\ @RAGChain._build_chain (config.with_similarity_threshold threshold conf) be
     = @RAGChain._build_chain conf be
  /\ @RAGChain.__init__ (config.with_similarity_threshold threshold conf) be
     = @RAGChain.__init__ conf be
  /\ @app.initialize (config.with_similarity_threshold threshold conf) be
     = @app.initialize conf be.
Proof.
  intros self. repeat split.
  - unfold VectorStoreManager.similarity_search. simpl. run_m.
    destruct (Chroma_similarity_search vs query k w) as [[docs|err] w'];
      reflexivity.
Qed.

End vector_store.

(** A search for "sky" with [k = 4] on an index of two passages returns
    both, the one that matches first; the other scores 0, below the
    configured threshold of 0.5, and is returned all the same. *)
Lemma similarity_threshold_unused_witness :
  @VectorStoreManager.similarity_search memory.backend memory.loaded_manager
    "sky" 4 memory.indexed_world
  = (Return [memory.sky_passage; memory.grass_passage], memory.indexed_world)
  /\ (memory.score "sky" memory.grass_passage
      < @SIMILARITY_THRESHOLD memory.cfg)%Q.
Proof.
  split; [|reflexivity].
  destruct (@similarity_threshold_unused memory.cfg memory.backend
              (@SIMILARITY_THRESHOLD memory.cfg) tt
              (@COLLECTION_NAME memory.cfg) "sky" 4 memory.indexed_world)
    as (_ & _ & Hsearch & _).
  etransitivity; [exact Hsearch|]. vm_compute. reflexivity.
Defined.

(** A manager built on the in-memory backend refuses to retrieve. *)
Lemma uninitialized_store_refuses_witness :
  @VectorStoreManager.get_retriever memory.backend memory.fresh_manager 4
    memory.empty_world
  = (Raise (ValueError
              "Vector store not initialized. Call load_vectorstore() first."),
     memory.empty_world)
  /\ @VectorStoreManager.similarity_search memory.backend memory.fresh_manager
       "What color is the sky?" 4 memory.empty_world
     = (Raise (ValueError "Vector store not initialized."), memory.empty_world).
Proof.
  assert (Hinit :
    @VectorStoreManager.__init__ memory.cfg memory.backend memory.empty_world
    = (Return memory.fresh_manager,
       snd (@VectorStoreManager.__init__ memory.cfg memory.backend
              memory.empty_world))) by reflexivity.
  exact (@uninitialized_store_refuses memory.cfg memory.backend
           _ _ _ Hinit "What color is the sky?" 4 memory.empty_world).
Defined.

(** Deleting on a manager without a store leaves an index with a
    collection in it untouched. *)
Lemma delete_collection_uninitialized_witness :
  let w := memory.set_collections
             [("document_qa_collection" : str, [])] memory.empty_world in
  @VectorStoreManager.delete_collection memory.cfg memory.backend
    memory.fresh_manager w
  = (Return tt, w).
Proof.
  intros w.
  exact (proj1 (@delete_collection_uninitialized memory.cfg memory.backend
                  memory.fresh_manager w eq_refl)).
Defined.

(** ** The answer pipeline (src/retrieval_chain.py) *)

Section answer_pipeline.
Context {conf : Config} {be : Backend}.

(** What the constructor returns when it returns. *)
Lemma init_chain (vectorstore_manager : VectorStoreManager.t) (w : World)
    (rc : RAGChain.t) (w' : World) :
  RAGChain.__init__ vectorstore_manager w = (Return rc, w') ->
  exists retriever,
    rc = {| RAGChain.vectorstore_manager := vectorstore_manager;
            RAGChain.llm :=
              {| model := OLLAMA_MODEL; base_url := OLLAMA_BASE_URL;
                 temperature := Some TEMPERATURE; num_predict := None |};
            RAGChain.prompt := from_template PROMPT_TEMPLATE;
            RAGChain.chain :=
              create_retrieval_chain retriever
                (create_stuff_documents_chain
                   {| model := OLLAMA_MODEL; base_url := OLLAMA_BASE_URL;
                      temperature := Some TEMPERATURE; num_predict := None |}
                   (from_template PROMPT_TEMPLATE)) |}.
Proof.
  unfold RAGChain.__init__, RAGChain._build_chain. run_m.
  destruct (VectorStoreManager.get_retriever _ _ _) as [[retriever|e] w1];
    [|discriminate].
  intros [= <- _]. exists retriever. reflexivity.
Qed.

(** C7, where the code departs from the claim: the model that every
    [query] goes through is built with the temperature [TEMPERATURE] and
    with no limit on the output length; [num_predict] keeps its default
    and is never [MAX_TOKENS]. *)
Theorem llm_output_length_not_configured
    (vectorstore_manager : VectorStoreManager.t) (w : World)
    (rc : RAGChain.t) (w' : World) :
  RAGChain.__init__ vectorstore_manager w = (Return rc, w') ->
  temperature (RAGChain.llm rc) = Some TEMPERATURE
  /\ num_predict (RAGChain.llm rc) = None
  /\ num_predict (RAGChain.llm rc) <> Some MAX_TOKENS
  /\ chain_llm (combine_docs_chain (RAGChain.chain rc)) = RAGChain.llm rc
  /\ (forall (question : str) (w1 : World),
        RAGChain.query rc question w1
        = match chain_invoke (RAGChain.chain rc) question w1 with
          | (Return response, w2) =>
              (Return {| answer := response_answer response;
                         context := response_context response;
                         question := question |}, w2)
          | (Raise e, w2) => (Raise e, w2)
          end).
Proof.
  intros Hinit. destruct (init_chain _ _ _ _ Hinit) as [retriever ->].
  simpl. repeat split; try discriminate.
Qed.

Lemma format_sources_loop_spec (context : list Document) :
  forall (i : Z) (sources : list str),
    RAGChain.format_sources_loop i context sources
    = sources
      ++ imap (fun j doc => RAGChain.source_entry (i + Z.of_nat j) doc) context.
Proof.
  induction context as [|doc rest IH]; intros i sources; simpl.
  - rewrite app_nil_r. reflexivity.
  - rewrite IH, <- app_assoc. simpl. rewrite Z.add_0_r.
    do 2 f_equal. apply imap_ext. intros j d _. simpl. f_equal. lia.
Qed.

(** The entries of a non-empty context, numbered from 1. *)
Lemma format_sources_entries (doc0 : Document) (rest : list Document) :
  RAGChain.format_sources (doc0 :: rest)
  = join nl (imap (fun j doc => RAGChain.source_entry (1 + Z.of_nat j) doc)
               (doc0 :: rest)).
Proof.
  unfold RAGChain.format_sources. rewrite format_sources_loop_spec.
  reflexivity.
Qed.

(** An entry shows the stored page value after ["Page: "]. *)
Lemma source_entry_page (i : Z) (doc : Document) (p : value) :
  metadata doc !! k_page = Some p ->
  exists before after,
    RAGChain.source_entry i doc
    = before ++ (lit "Page: " ++ str_of p ++ nl) ++ after.
Proof.
  intros Hp. unfold RAGChain.source_entry. rewrite Hp. simpl.
  exists ("[" ++ str_of_int i ++ "] File: "
          ++ str_of (default (VStr "Unknown") (metadata doc !! k_source))
          ++ " | "),
         ("    Content: " ++ slice_to 150 (page_content doc) ++ "..." ++ nl).
  rewrite <- !app_assoc. reflexivity.
Qed.

(** C5: [format_sources([])] is exactly ["No sources found."]; for a
    non-empty list of [n] passages the result is [n] entries joined by
    newlines, the entry at position [j] (from 0) being numbered [[j+1]] and
    showing that passage's source file, its page number and the first 150
    characters of its content. *)
Theorem format_sources_numbered :
  RAGChain.format_sources [] = ("No sources found." : str)
  /\ forall (doc0 : Document) (rest : list Document),
      let context := doc0 :: rest in
      exists entries : list str,
        RAGChain.format_sources context = join nl entries
        /\ length entries = length context
        /\ forall (j : nat) (doc : Document),
            context !! j = Some doc ->
            entries !! j
            = Some ("[" ++ str_of_int (Z.of_nat j + 1) ++ "] File: "
                    ++ str_of (default (VStr "Unknown")
                                 (metadata doc !! k_source))
                    ++ " | Page: "
                    ++ str_of (default (VStr "N/A") (metadata doc !! k_page))
                    ++ nl
                    ++ "    Content: " ++ take 150 (page_content doc)
                    ++ "..." ++ nl).
Proof.
  split; [reflexivity|].
  intros doc0 rest context.
  exists (imap (fun j doc => RAGChain.source_entry (1 + Z.of_nat j) doc) context).
  split; [|split].
  - apply format_sources_entries.
  - apply length_imap.
  - intros j doc Hj. rewrite list_lookup_imap, Hj. simpl.
    unfold RAGChain.source_entry, slice_to.
    rewrite (Z.add_comm 1). reflexivity.
Qed.

End answer_pipeline.

(** The chain built on the in-memory backend: temperature 0.2, no output
    limit, although [MAX_TOKENS] is 512. *)
Lemma llm_output_length_not_configured_witness :
  temperature (RAGChain.llm memory.served_chain) = Some (2 # 10)%Q
  /\ num_predict (RAGChain.llm memory.served_chain) = None
  /\ num_predict (RAGChain.llm memory.served_chain) <> Some 512.
Proof.
  assert (Hinit :
    @RAGChain.__init__ memory.cfg memory.backend memory.loaded_manager
      memory.empty_world
    = (Return memory.served_chain,
       snd (@RAGChain.__init__ memory.cfg memory.backend memory.loaded_manager
              memory.empty_world))) by reflexivity.
  destruct (@llm_output_length_not_configured memory.cfg memory.backend
              _ _ _ _ Hinit) as (Htemp & Hnone & Hneq & _).
  split; [exact Htemp|]. split; [exact Hnone | exact Hneq].
Defined.

(** Two retrieved passages, as the front end shows them. *)
Example format_sources_two :
  RAGChain.format_sources
    [ {| page_content := "The sky is blue.";
         metadata := <[k_source := VStr "sky.pdf"]> {[ k_page := VInt 0 ]} |};
      {| page_content := "Grass is green."; metadata := ∅ |} ]
  = "[1] File: sky.pdf | Page: 0" ++ nl
    ++ "    Content: The sky is blue...." ++ nl
    ++ nl
    ++ "[2] File: Unknown | Page: N/A" ++ nl
    ++ "    Content: Grass is green...." ++ nl.
Proof. vm_compute. reflexivity. Qed.

(** ** The document processor (src/document_loader.py) *)

Lemma join_lookup (sep : str) (entries : list str) (j : nat) (entry : str) :
  entries !! j = Some entry ->
  exists pre post, join sep entries = pre ++ entry ++ post.
Proof.
  revert j. induction entries as [|x rest IH]; intros j Hj; [discriminate|].
  destruct j as [|j]; simpl in Hj.
  - injection Hj as ->. destruct rest as [|y rest'].
    + exists [], []. simpl. rewrite app_nil_r. reflexivity.
    + exists [], (sep ++ join sep (y :: rest')). reflexivity.
  - destruct (IH j Hj) as (pre & post & Heq).
    destruct rest as [|y rest']; [discriminate|].
    exists (x ++ sep ++ pre), post.
    change (join sep (x :: y :: rest')) with (x ++ sep ++ join sep (y :: rest')).
    rewrite Heq, <- !app_assoc. reflexivity.
Qed.

Lemma in_str_inside (sub a b pre post : str) :
  in_str sub (pre ++ (a ++ sub ++ b) ++ post) = true.
Proof.
  replace (pre ++ (a ++ sub ++ b) ++ post)
    with ((pre ++ a) ++ sub ++ (b ++ post))
    by (rewrite <- !app_assoc; reflexivity).
  apply in_str_app.
Qed.

Lemma chunk_id_not_page : k_chunk_id <> k_page.
Proof. vm_compute. discriminate. Qed.

Lemma chunk_id_not_source : k_chunk_id <> k_source.
Proof. vm_compute. discriminate. Qed.

Lemma length_add_chunk_ids (chunks : list Document) :
  forall idx, length (DocumentProcessor.add_chunk_ids idx chunks) = length chunks.
Proof.
  induction chunks as [|c rest IH]; intros idx; simpl; [|rewrite IH];
    reflexivity.
Qed.

Lemma lookup_add_chunk_ids (chunks : list Document) :
  forall (idx : Z) (j : nat) (piece : Document),
    chunks !! j = Some piece ->
    DocumentProcessor.add_chunk_ids idx chunks !! j
    = Some {| page_content := page_content piece;
              metadata :=
                <[k_chunk_id := VInt (idx + Z.of_nat j)]> (metadata piece) |}.
Proof.
  induction chunks as [|c rest IH]; intros idx j piece Hj; [discriminate|].
  destruct j as [|j]; simpl in *.
  - injection Hj as ->. rewrite Z.add_0_r. reflexivity.
  - rewrite (IH (idx + 1) j piece Hj). do 4 f_equal. lia.
Qed.


(** On the in-memory backend, a one-page PDF with text that fits in one
    chunk comes out as one passage tagged with page 0. *)
Lemma memory_one_page_pdf (dir path text : str) :
  startswith dir path = true ->
  strip text <> [] ->
  (Z.of_nat (length text) <= @CHUNK_SIZE memory.cfg)%Z ->
  exists chunk w',
    @DocumentProcessor.process_documents memory.cfg memory.backend
      (@DocumentProcessor.__init__ memory.cfg) (Some dir)
      (memory.one_pdf path text)
    = (Return [chunk], w')
    /\ page_content chunk = strip text
    /\ metadata chunk !! k_page = Some (VInt 0)
    /\ in_str ("Page: 0" ++ nl) (RAGChain.format_sources [chunk]) = true.
Proof.
  intros Hdir Htext Hlen.
  unfold DocumentProcessor.process_documents, DocumentProcessor.load_all_pdfs,
    DocumentProcessor.chunk_documents.
  run_m. cbn -[repeat_str lit strip startswith Z.ltb Z.of_nat].
  rewrite (decide_True _ _ Hdir).
  cbn -[repeat_str lit strip startswith Z.ltb Z.of_nat].
  unfold memory.split_text.
  cbn -[repeat_str lit strip startswith Z.ltb Z.of_nat].
  replace (1000 <? Z.of_nat (length text))%Z with false
    by (symmetry; apply Z.ltb_ge; exact Hlen).
  destruct (strip text) as [|c rest] eqn:Hstrip; [contradiction|].
  cbn -[repeat_str lit strip startswith Z.ltb Z.of_nat].
  eexists. eexists. split; [reflexivity|].
  cbn -[lit]. split; [reflexivity|]. split; [reflexivity|].
  match goal with
  | |- in_str _ (RAGChain.source_entry 1 ?doc) = true =>
      destruct (source_entry_page 1 doc (VInt 0) eq_refl)
        as (before & after & ->)
  end.
  change (lit "Page: " ++ str_of (VInt 0) ++ nl) with (lit "Page: 0" ++ nl).
  apply in_str_app.
Qed.

Section document_processor.
Context {conf : Config} {be : Backend}.

(** [load_all_pdfs] returns the loader's pages as they are. *)
Lemma load_all_pdfs_pages (self : DocumentProcessor.t) (directory : option str)
    (w : World) (documents : list Document) (w' : World) :
  DocumentProcessor.load_all_pdfs self directory w = (Return documents, w') ->
  exists w1,
    DirectoryLoader_load
      {| loader_path := match directory with
                        | None => DOCUMENTS_DIR
                        | Some d => d
                        end;
         loader_glob := "**/*.pdf";
         show_progress := true |} w
    = (Return documents, w1).
Proof.
  unfold DocumentProcessor.load_all_pdfs. run_m.
  destruct (DirectoryLoader_load _ w) as [[docs|e] w1]; [|discriminate].
  intros [= <- _]. exists w1. reflexivity.
Qed.

(** [chunk_documents] numbers what the splitter returns. *)
Lemma chunk_documents_pieces (self : DocumentProcessor.t)
    (documents : list Document) (w : World) (chunks : list Document)
    (w' : World) :
  DocumentProcessor.chunk_documents self documents w = (Return chunks, w') ->
  exists pieces w1,
    split_documents (DocumentProcessor.text_splitter self) documents w
    = (Return pieces, w1)
    /\ chunks = DocumentProcessor.add_chunk_ids 0 pieces.
Proof.
  unfold DocumentProcessor.chunk_documents. run_m.
  destruct (split_documents _ documents w) as [[pieces|e] w1]; [|discriminate].
  intros [= <- _]. exists pieces, w1. split; reflexivity.
Qed.



(** C8, as the code has it: a passage keeps the page number that the
    loader stored for its page ([chunk_documents] only adds [chunk_id] to
    what the splitter returns), and [format_sources] prints that stored
    value after ["Page: "] in the passage's entry.  The loader counts
    pages from 0, so a single one-page PDF gives one passage with page
    number 0 whose source line reads ["Page: 0"]. *)
Theorem page_number_passes_through :
  (forall (self : DocumentProcessor.t) (documents : list Document) (w : World)
          (chunks : list Document) (w' : World),
      DocumentProcessor.chunk_documents self documents w = (Return chunks, w') ->
      exists pieces w1,
        split_documents (DocumentProcessor.text_splitter self) documents w
        = (Return pieces, w1)
        /\ length chunks = length pieces
        /\ (forall (j : nat) (piece : Document),
              pieces !! j = Some piece ->
              exists chunk,
                chunks !! j = Some chunk
                /\ page_content chunk = page_content piece
                /\ metadata chunk !! k_page = metadata piece !! k_page
                /\ metadata chunk !! k_source = metadata piece !! k_source
                /\ metadata chunk !! k_chunk_id = Some (VInt (Z.of_nat j)))
        /\ (forall (j : nat) (chunk : Document) (p : value),
              chunks !! j = Some chunk ->
              metadata chunk !! k_page = Some p ->
              in_str ("Page: " ++ str_of p ++ nl)
                (RAGChain.format_sources chunks)
              = true))
  /\ (forall dir path text : str,
        startswith dir path = true ->
        strip text <> [] ->
        (Z.of_nat (length text) <= @CHUNK_SIZE memory.cfg)%Z ->
        exists chunk w',
          @DocumentProcessor.process_documents memory.cfg memory.backend
            (@DocumentProcessor.__init__ memory.cfg) (Some dir)
            (memory.one_pdf path text)
          = (Return [chunk], w')
          /\ page_content chunk = strip text
          /\ metadata chunk !! k_page = Some (VInt 0)
          /\ in_str ("Page: 0" ++ nl) (RAGChain.format_sources [chunk])
             = true).
Proof.
  split; [|exact memory_one_page_pdf].
  intros self documents w chunks w' Hchunk.
  destruct (chunk_documents_pieces _ _ _ _ _ Hchunk)
    as (pieces & w1 & Hsplit & ->).
  exists pieces, w1. split; [exact Hsplit|].
  split; [apply length_add_chunk_ids|]. split.
  - intros j piece Hj. eexists. split; [apply lookup_add_chunk_ids, Hj|].
    simpl. repeat split.
    + apply lookup_insert_ne, chunk_id_not_page.
    + apply lookup_insert_ne, chunk_id_not_source.
    + rewrite lookup_insert_eq. reflexivity.
  - intros j chunk p Hj Hp.
    destruct (DocumentProcessor.add_chunk_ids 0 pieces) as [|c0 rest] eqn:E;
      [discriminate|].
    rewrite format_sources_entries.
    assert (Hentry :
      imap (fun j doc => RAGChain.source_entry (1 + Z.of_nat j) doc)
        (c0 :: rest) !! j
      = Some (RAGChain.source_entry (1 + Z.of_nat j) chunk))
      by (rewrite list_lookup_imap, Hj; reflexivity).
    destruct (join_lookup nl _ j _ Hentry) as (pre & post & ->).
    destruct (source_entry_page (1 + Z.of_nat j) chunk p Hp)
      as (before & after & ->).
    apply in_str_inside.
Qed.

End document_processor.

(** *** The processor on the in-memory backend *)



(** C8 fails as stated: the passage of a single one-page PDF carries page
    number 0, not 1, and its source line reads ["Page: 0"]; ["Page: 1"]
    occurs nowhere in it. *)
Lemma page_number_counterexample :
  let w := memory.one_pdf "/docs/sky.pdf" "The sky is blue." in
  let self := @DocumentProcessor.__init__ memory.cfg in
  exists chunk,
    fst (@DocumentProcessor.process_documents memory.cfg memory.backend self
           (Some ("/docs" : str)) w)
    = Return [chunk]
    /\ page_content chunk = ("The sky is blue." : str)
    /\ metadata chunk !! k_page = Some (VInt 0)
    /\ metadata chunk !! k_page <> Some (VInt 1)
    /\ RAGChain.format_sources [chunk]
       = "[1] File: /docs/sky.pdf | Page: 0" ++ nl
         ++ "    Content: The sky is blue...." ++ nl
    /\ in_str "Page: 1" (RAGChain.format_sources [chunk]) = false.
Proof.
  intros w self. eexists. split; [vm_compute; reflexivity|].
  repeat split; try (vm_compute; reflexivity). vm_compute. discriminate.
Qed.

(** The same PDF through [chunk_documents]: the entry shows ["Page: 0"]. *)
Lemma page_number_passes_through_witness :
  let w := memory.one_pdf "/docs/sky.pdf" "The sky is blue." in
  let self := @DocumentProcessor.__init__ memory.cfg in
  let page := {| page_content := "The sky is blue.";
                 metadata := <[k_source := VStr "/docs/sky.pdf"]>
                               {[ k_page := VInt 0 ]} |} in
  (exists chunks w',
      @DocumentProcessor.chunk_documents memory.backend self [page] w
      = (Return chunks, w')
      /\ in_str ("Page: 0" ++ nl) (RAGChain.format_sources chunks) = true)
  /\ (exists chunk w',
        @DocumentProcessor.process_documents memory.cfg memory.backend self
          (Some ("/docs" : str)) w
        = (Return [chunk], w')
        /\ metadata chunk !! k_page = Some (VInt 0)).
Proof.
  intros w self page.
  destruct (@page_number_passes_through memory.backend) as [Hkept Hzero].
  split.
  - pose (chunked := @DocumentProcessor.chunk_documents memory.backend
                       self [page] w).
    pose (chunks := match fst chunked with Return c => c | Raise _ => [] end).
    assert (Hchunk : chunked = (Return chunks, snd chunked)) by reflexivity.
    exists chunks, (snd chunked). split; [exact Hchunk|].
    destruct (Hkept self [page] w chunks (snd chunked) Hchunk)
      as (pieces & w1 & _ & _ & _ & Hshown).
    exact (Hshown 0%nat
             {| page_content := "The sky is blue.";
                metadata := <[k_chunk_id := VInt 0]> (metadata page) |}
             (VInt 0) eq_refl eq_refl).
  - assert (Hdir : startswith ("/docs" : str) ("/docs/sky.pdf" : str) = true)
      by reflexivity.
    assert (Htext : strip ("The sky is blue." : str) <> [])
      by (vm_compute; discriminate).
    assert (Hlen : (Z.of_nat (length ("The sky is blue." : str))
                    <= @CHUNK_SIZE memory.cfg)%Z)
      by (vm_compute; discriminate).
    destruct (Hzero "/docs" "/docs/sky.pdf" "The sky is blue." Hdir Htext Hlen)
      as (chunk & w' & Hrun & _ & Hpage & _).
    exists chunk, w'. split; [exact Hrun | exact Hpage].
Defined.

(** * Further properties of the pipeline *)

(** ** Loading, then retrieving (src/vectorstore.py) *)

Section store_lifecycle.
Context {conf : Config} {be : Backend}.

(** X1: Once [load_vectorstore] or [create_vectorstore] has returned, the
    manager it leaves keeps its embedding model, [get_retriever] returns a
    retriever over the store just set, for every [k], and
    [similarity_search] goes to that store: the not-initialized error is
    gone. *)
Theorem retriever_after_load (self : VectorStoreManager.t) (w : World)
    (self' : VectorStoreManager.t) (vs : Chroma) (w' : World) :
  VectorStoreManager.load_vectorstore self w = (Return (self', vs), w')
  \/ (exists documents persist,
         VectorStoreManager.create_vectorstore self documents persist w
         = (Return (self', vs), w')) ->
  VectorStoreManager.embeddings self' = VectorStoreManager.embeddings self
  /\ forall (query : str) (k : Z) (w1 : World),
      VectorStoreManager.get_retriever self' k w1
      = (Return (as_retriever vs "similarity" {[ ("k" : str) := VInt k ]}), w1)
      /\ VectorStoreManager.similarity_search self' query k w1
         = Chroma_similarity_search vs query k w1.
Proof.
  intros Hset.
  assert (Hself' : self' = {| VectorStoreManager.embeddings :=
                                VectorStoreManager.embeddings self;
                              VectorStoreManager.vectorstore := Some vs |}).
  { destruct Hset as [Hload | (documents & persist & Hcreate)].
    - unfold VectorStoreManager.load_vectorstore in Hload. run_m.
      destruct (Chroma_open _ _ _ _) as [[vs1|e] w1]; [|discriminate].
      injection Hload as <- <- _. reflexivity.
    - unfold VectorStoreManager.create_vectorstore in Hcreate. run_m.
      destruct (Chroma_from_documents _ _ _ _ _) as [[vs1|e] w1];
        [|discriminate].
      injection Hcreate as <- <- _. reflexivity. }
  subst self'. split; [reflexivity|]. intros query k w1. split; [reflexivity|].
  unfold VectorStoreManager.similarity_search. simpl. run_m.
  destruct (Chroma_similarity_search vs query k w1) as [[docs|e] w2];
    reflexivity.
Qed.


End store_lifecycle.

Lemma retriever_after_load_witness :
  @VectorStoreManager.get_retriever memory.backend memory.loaded_manager 4
    memory.empty_world
  = (Return (as_retriever ("document_qa_collection" : str) "similarity"
               {[ ("k" : str) := VInt 4 ]}), memory.empty_world).
Proof.
  assert (Hload :
    @VectorStoreManager.load_vectorstore memory.cfg memory.backend
      memory.fresh_manager memory.empty_world
    = (Return (memory.loaded_manager, "document_qa_collection" : str),
       snd (@VectorStoreManager.load_vectorstore memory.cfg memory.backend
              memory.fresh_manager memory.empty_world))) by reflexivity.
  exact (proj1 (proj2 (@retriever_after_load memory.cfg memory.backend
                         _ _ _ _ _ (or_introl Hload))
                  "sky" 4 memory.empty_world)).
Defined.


(** ** Building the chain and starting the front end *)

Section start_up.
Context {conf : Config} {be : Backend}.


(** X4: If start-up yields a chain, then the embedding model was loaded
    and Chroma opened the configured collection, the chain's manager holds
    exactly that model and that store, and its retriever asks that store
    for [TOP_K_RESULTS] passages.  So a failed load of the embedding model
    or a failed opening of the collection never yields a chain, and a chain
    in service never meets the not-initialized error. *)
Theorem initialize_yields_loaded_chain (w : World) (rc : RAGChain.t)
    (w' : World) :
  app.initialize w = (Return (Some rc), w') ->
  exists emb w1 vs w2,
    HuggingFaceEmbeddings
      {| model_name := EMBEDDING_MODEL; device := "cpu";
         normalize_embeddings := true |}
      (print "Loading embedding model..."
         (print "Initializing RAG system..." w))
    = (Return emb, w1)
    /\ Chroma_open COLLECTION_NAME emb VECTORSTORE_DIR
         (print "Loading existing vector store..."
            (print (check_mark ++ " Embedding model loaded: "
                    ++ EMBEDDING_MODEL) w1))
       = (Return vs, w2)
    /\ RAGChain.vectorstore_manager rc
       = {| VectorStoreManager.embeddings := emb;
            VectorStoreManager.vectorstore := Some vs |}
    /\ chain_retriever (RAGChain.chain rc)
       = as_retriever vs "similarity" {[ ("k" : str) := VInt TOP_K_RESULTS ]}
    /\ (forall k w3,
          exists retriever,
            VectorStoreManager.get_retriever (RAGChain.vectorstore_manager rc)
              k w3 = (Return retriever, w3)).
Proof.
  unfold app.initialize, VectorStoreManager.__init__,
    VectorStoreManager.load_vectorstore, RAGChain.__init__,
    RAGChain._build_chain, VectorStoreManager.get_retriever.
  run_m. simpl.
  destruct (HuggingFaceEmbeddings _ _) as [[emb|e] w1] eqn:Hemb;
    [|discriminate].
  destruct (Chroma_open _ _ _ _) as [[vs|e] w2] eqn:Hopen; [|discriminate].
  intros [= <- _]. exists emb, w1, vs, w2. simpl.
  split; [reflexivity|]. split; [exact Hopen|].
  split; [reflexivity|]. split; [reflexivity|].
  intros k w3. eexists. reflexivity.
Qed.

End start_up.


(** Start-up on the in-memory backend yields the chain over the
    configured collection. *)
Lemma initialize_yields_loaded_chain_witness :
  exists w',
    @app.initialize memory.cfg memory.backend memory.empty_world
    = (Return (Some memory.served_chain), w')
    /\ chain_retriever (RAGChain.chain memory.served_chain)
       = as_retriever ("document_qa_collection" : str) "similarity"
           {[ ("k" : str) := VInt 4 ]}.
Proof.
  pose (run := @app.initialize memory.cfg memory.backend memory.empty_world).
  assert (Hrun : run = (Return (Some memory.served_chain), snd run))
    by reflexivity.
  exists (snd run). split; [exact Hrun|].
  destruct (@initialize_yields_loaded_chain memory.cfg memory.backend
              _ _ _ Hrun) as (emb & w1 & vs & w2 & _ & Hopen & _ & Hk & _).
  injection Hopen as <- _. exact Hk.
Defined.

(** ** Chunking and the processing pipeline (src/document_loader.py) *)

Section processing.
Context {conf : Config} {be : Backend}.

(** X5: [chunk_documents] numbers the splitter's chunks 0, 1, 2, ... in
    order, replacing any [chunk_id] they came with: no two chunks of a run
    share an id, and every other metadata key and the text are kept. *)
Theorem chunk_ids_sequential (self : DocumentProcessor.t)
    (documents : list Document) (w : World) (chunks : list Document)
    (w' : World) :
  DocumentProcessor.chunk_documents self documents w = (Return chunks, w') ->
  (forall (j : nat) (chunk : Document),
      chunks !! j = Some chunk ->
      metadata chunk !! k_chunk_id = Some (VInt (Z.of_nat j)))
  /\ (forall (i j : nat) (ci cj : Document),
      chunks !! i = Some ci -> chunks !! j = Some cj ->
      metadata ci !! k_chunk_id = metadata cj !! k_chunk_id -> i = j)
  /\ (exists pieces w1,
      split_documents (DocumentProcessor.text_splitter self) documents w
      = (Return pieces, w1)
      /\ map page_content chunks = map page_content pieces
      /\ forall (j : nat) (chunk piece : Document) (key : str),
          chunks !! j = Some chunk -> pieces !! j = Some piece ->
          key <> k_chunk_id ->
          metadata chunk !! key = metadata piece !! key).
Proof.
  intros Hchunk.
  destruct (chunk_documents_pieces _ _ _ _ _ Hchunk)
    as (pieces & w1 & Hsplit & ->).
  assert (Hid : forall (j : nat) (chunk : Document),
             DocumentProcessor.add_chunk_ids 0 pieces !! j = Some chunk ->
             exists piece,
               pieces !! j = Some piece
               /\ chunk = {| page_content := page_content piece;
                             metadata := <[k_chunk_id := VInt (Z.of_nat j)]>
                                           (metadata piece) |}).
  { intros j chunk Hj.
    destruct (pieces !! j) as [piece|] eqn:Hpiece.
    - rewrite (lookup_add_chunk_ids _ 0 j piece Hpiece) in Hj.
      injection Hj as <-. exists piece. split; reflexivity.
    - apply lookup_ge_None in Hpiece.
      rewrite <- (length_add_chunk_ids pieces 0) in Hpiece.
      apply lookup_ge_None in Hpiece. congruence. }
  split; [|split].
  - intros j chunk Hj. destruct (Hid j chunk Hj) as (piece & _ & ->).
    simpl. apply lookup_insert_eq.
  - intros i j ci cj Hi Hj Heq.
    destruct (Hid i ci Hi) as (pi & _ & ->).
    destruct (Hid j cj Hj) as (pj & _ & ->).
    simpl in Heq. rewrite !lookup_insert_eq in Heq.
    injection Heq as Heq. lia.
  - exists pieces, w1. split; [exact Hsplit|]. split.
    + clear. generalize 0. induction pieces as [|p rest IH]; intros idx;
        simpl; [|rewrite IH]; reflexivity.
    + intros j chunk piece key Hj Hpiece Hkey.
      destruct (Hid j chunk Hj) as (piece' & Hpiece' & ->).
      rewrite Hpiece in Hpiece'. injection Hpiece' as <-.
      simpl. apply lookup_insert_ne. congruence.
Qed.

(** Every way [process_documents] can end, by what the loader and the
    splitter did. *)
Lemma process_documents_cases (self : DocumentProcessor.t)
    (directory : option str) (w : World) (r : result (list Document))
    (w' : World) :
  DocumentProcessor.process_documents self directory w = (r, w') ->
  (exists e,
      DocumentProcessor.load_all_pdfs self directory
        (DocumentProcessor.banner_printed w) = (Raise e, w')
      /\ r = Raise e)
  \/ (DocumentProcessor.load_all_pdfs self directory
        (DocumentProcessor.banner_printed w) = (Return [], w')
      /\ exists msg, r = Raise (ValueError msg))
  \/ (exists documents w1,
        DocumentProcessor.load_all_pdfs self directory
          (DocumentProcessor.banner_printed w) = (Return documents, w1)
        /\ documents <> []
        /\ ((exists e,
                DocumentProcessor.chunk_documents self documents w1
                = (Raise e, w')
                /\ r = Raise e)
            \/ (exists w2,
                DocumentProcessor.chunk_documents self documents w1
                = (Return [], w2)
                /\ r = Raise (IndexError "list index out of range"))
            \/ (exists chunks w2,
                DocumentProcessor.chunk_documents self documents w1
                = (Return chunks, w2)
                /\ chunks <> []
                /\ r = Return chunks))).
Proof.
  unfold DocumentProcessor.process_documents.
  unfold bind at 1 2 3 4. unfold say at 1 2 3.
  fold (DocumentProcessor.banner_printed w).
  destruct (DocumentProcessor.load_all_pdfs self directory
              (DocumentProcessor.banner_printed w))
    as [[[|doc documents]|e] w1] eqn:Hload.
  - intros [= <- <-]. right. left. split; [reflexivity | eauto].
  - unfold bind at 1.
    destruct (DocumentProcessor.chunk_documents self (doc :: documents) w1)
      as [[[|chunk chunks]|e] w2] eqn:Hchunk.
    + run_m. simpl. intros [= <- <-]. right. right.
      exists (doc :: documents), w1. split; [reflexivity|].
      split; [discriminate|]. right. left. exists w2.
      split; [exact Hchunk | reflexivity].
    + run_m. simpl. intros [= <- <-]. right. right.
      exists (doc :: documents), w1. split; [reflexivity|].
      split; [discriminate|]. right. right.
      exists (chunk :: chunks), w2. split; [exact Hchunk|].
      split; [discriminate | reflexivity].
    + intros [= <- <-]. right. right.
      exists (doc :: documents), w1. split; [reflexivity|].
      split; [discriminate|]. left. exists e.
      split; [exact Hchunk | reflexivity].
  - intros [= <- <-]. left. exists e. split; reflexivity.
Qed.

(** X6: [process_documents] never returns an empty list: what it returns is
    the non-empty list of numbered chunks that [chunk_documents] made from
    a non-empty list of loaded pages. *)
Theorem process_documents_never_empty (self : DocumentProcessor.t)
    (directory : option str) (w : World) (chunks : list Document)
    (w' : World) :
  DocumentProcessor.process_documents self directory w = (Return chunks, w') ->
  chunks <> []
  /\ exists documents w1 w2,
      DocumentProcessor.load_all_pdfs self directory
        (DocumentProcessor.banner_printed w) = (Return documents, w1)
      /\ documents <> []
      /\ DocumentProcessor.chunk_documents self documents w1
         = (Return chunks, w2).
Proof.
  intros Hrun.
  destruct (process_documents_cases _ _ _ _ _ Hrun)
    as [(e & _ & [=]) | [(_ & msg & [=]) | (documents & w1 & Hload & Hdocs & H)]].
  destruct H as [(e & _ & [=]) | [(w2 & _ & [=]) |
                 (chunks' & w2 & Hchunk & Hne & [= ->])]].
  split; [exact Hne|]. exists documents, w1, w2. auto.
Qed.

(** X7: When pages are loaded but the splitter makes no chunk of them (pages
    without text), [process_documents] raises
    [IndexError("list index out of range")] at the sample print, and every
    exception of the loader or the splitter reaches the caller as it was
    raised. *)
Theorem process_documents_failures (self : DocumentProcessor.t)
    (directory : option str) (w : World) :
  (forall documents w1 w2,
      DocumentProcessor.load_all_pdfs self directory
        (DocumentProcessor.banner_printed w) = (Return documents, w1) ->
      documents <> [] ->
      DocumentProcessor.chunk_documents self documents w1 = (Return [], w2) ->
      fst (DocumentProcessor.process_documents self directory w)
      = Raise (IndexError "list index out of range"))
  /\ (forall e w1,
      DocumentProcessor.load_all_pdfs self directory
        (DocumentProcessor.banner_printed w) = (Raise e, w1) ->
      DocumentProcessor.process_documents self directory w = (Raise e, w1))
  /\ (forall documents w1 e w2,
      DocumentProcessor.load_all_pdfs self directory
        (DocumentProcessor.banner_printed w) = (Return documents, w1) ->
      documents <> [] ->
      DocumentProcessor.chunk_documents self documents w1 = (Raise e, w2) ->
      DocumentProcessor.process_documents self directory w = (Raise e, w2)).
Proof.
  split; [|split].
  - intros documents w1 w2 Hload Hdocs Hchunk.
    unfold DocumentProcessor.process_documents.
    unfold bind at 1 2 3 4. unfold say at 1 2 3.
    unfold DocumentProcessor.banner_printed in Hload. rewrite Hload.
    destruct documents as [|doc documents]; [contradiction|].
    unfold bind at 1. rewrite Hchunk. reflexivity.
  - intros e w1 Hload. unfold DocumentProcessor.process_documents.
    unfold bind at 1 2 3 4. unfold say at 1 2 3.
    unfold DocumentProcessor.banner_printed in Hload. rewrite Hload.
    reflexivity.
  - intros documents w1 e w2 Hload Hdocs Hchunk.
    unfold DocumentProcessor.process_documents.
    unfold bind at 1 2 3 4. unfold say at 1 2 3.
    unfold DocumentProcessor.banner_printed in Hload. rewrite Hload.
    destruct documents as [|doc documents]; [contradiction|].
    unfold bind at 1. rewrite Hchunk. reflexivity.
Qed.


End processing.

(** Two pages that arrive with a [chunk_id] of their own are renumbered
    0 and 1. *)
Lemma chunk_ids_sequential_witness :
  let pages :=
    [ {| page_content := "The sky is blue.";
         metadata := <[k_chunk_id := VInt 7]> {[ k_page := VInt 0 ]} |};
      {| page_content := "Grass is green.";
         metadata := <[k_chunk_id := VInt 7]> {[ k_page := VInt 1 ]} |} ] in
  exists c0 c1 w',
    @DocumentProcessor.chunk_documents memory.backend
      (@DocumentProcessor.__init__ memory.cfg) pages memory.empty_world
    = (Return [c0; c1], w')
    /\ metadata c0 !! k_chunk_id = Some (VInt 0)
    /\ metadata c1 !! k_chunk_id = Some (VInt 1).
Proof.
  intros pages.
  pose (run := @DocumentProcessor.chunk_documents memory.backend
                 (@DocumentProcessor.__init__ memory.cfg) pages
                 memory.empty_world).
  pose (chunks := match fst run with Return c => c | Raise _ => [] end).
  assert (Hrun : run = (Return chunks, snd run)) by reflexivity.
  destruct (@chunk_ids_sequential memory.backend _ _ _ _ _ Hrun)
    as (Hids & _ & _).
  exists {| page_content := "The sky is blue.";
            metadata := <[k_chunk_id := VInt 0]>
                          (<[k_chunk_id := VInt 7]> {[ k_page := VInt 0 ]}) |},
         {| page_content := "Grass is green.";
            metadata := <[k_chunk_id := VInt (0 + 1)]>
                          (<[k_chunk_id := VInt 7]> {[ k_page := VInt 1 ]}) |},
         (snd run).
  split; [exact Hrun|]. split.
  - exact (Hids 0%nat _ eq_refl).
  - exact (Hids 1%nat _ eq_refl).
Defined.

(** The one-page PDF again: the list that comes back is not empty. *)
Lemma process_documents_never_empty_witness :
  exists chunks w',
    @DocumentProcessor.process_documents memory.cfg memory.backend
      (@DocumentProcessor.__init__ memory.cfg) None fixtures.ready_world
    = (Return chunks, w')
    /\ chunks <> [].
Proof.
  pose (run := @DocumentProcessor.process_documents memory.cfg memory.backend
                 (@DocumentProcessor.__init__ memory.cfg) None
                 fixtures.ready_world).
  pose (chunks := match fst run with Return c => c | Raise _ => [] end).
  assert (Hrun : run = (Return chunks, snd run)) by reflexivity.
  exists chunks, (snd run). split; [exact Hrun|].
  exact (proj1 (@process_documents_never_empty memory.cfg memory.backend
                  _ _ _ _ _ Hrun)).
Defined.

(** A scanned page: pages are loaded, no chunk is made, [IndexError]. *)
Lemma process_documents_failures_witness :
  fst (@DocumentProcessor.process_documents memory.cfg memory.backend
         (@DocumentProcessor.__init__ memory.cfg) (Some ("/docs" : str))
         (memory.one_pdf "/docs/scan.pdf" ""))
  = Raise (IndexError "list index out of range").
Proof.
  set (self := @DocumentProcessor.__init__ memory.cfg).
  set (w := memory.one_pdf "/docs/scan.pdf" "").
  pose (loaded := @DocumentProcessor.load_all_pdfs memory.cfg memory.backend
                    self (Some ("/docs" : str))
                    (@DocumentProcessor.banner_printed memory.backend w)).
  pose (documents := match fst loaded with Return d => d | Raise _ => [] end).
  pose (chunked := @DocumentProcessor.chunk_documents memory.backend self
                     documents (snd loaded)).
  assert (Hload : loaded = (Return documents, snd loaded)) by reflexivity.
  assert (Hdocs : documents <> []) by (vm_compute; discriminate).
  assert (Hchunk : chunked = (Return [], snd chunked)) by reflexivity.
  exact (proj1 (@process_documents_failures memory.cfg memory.backend self
                  (Some ("/docs" : str)) w)
           documents (snd loaded) (snd chunked) Hload Hdocs Hchunk).
Defined.

(** ** A question through the real chain (app.py over retrieval_chain.py) *)

Section serving.
Context {be : Backend}.

(** The handler over a [RAGChain], for a question that is not blank. *)
Lemma answer_question_via_chain (rc : RAGChain.t) (question : str)
    (show_sources : bool) (w : World) :
  strip question <> [] ->
  app.answer_question (app.rag_chain rc) question show_sources w
  = match chain_invoke (RAGChain.chain rc) question w with
    | (Return response, w') =>
        (Return (response_answer response,
                 if show_sources
                 then RAGChain.format_sources (response_context response)
                 else "Sources hidden (enable 'Show Sources' to view)" : str),
         w')
    | (Raise e, w') => (Return ("Error: " ++ str_of_exn e, "" : str), w')
    end.
Proof.
  intros Hstrip. rewrite (answer_question_asked _ _ _ Hstrip).
  unfold app.rag_chain, RAGChain.query. run_m. simpl.
  destruct (chain_invoke (RAGChain.chain rc) question w) as [[response|e] w'];
    [|reflexivity].
  destruct show_sources; reflexivity.
Qed.

(** The source list is never the empty string. *)
Lemma format_sources_not_empty (context : list Document) :
  RAGChain.format_sources context <> [].
Proof.
  destruct context as [|doc rest]; [vm_compute; discriminate|].
  rewrite format_sources_entries. simpl.
  destruct (imap _ rest); unfold RAGChain.source_entry; discriminate.
Qed.

(** X9: With the global [rag_chain] bound to a [RAGChain], a question that
    has one character that is not whitespace goes to [chain.invoke] exactly
    as typed, once.  If the chain answers, the handler returns the model's
    text with the formatted sources of the returned context (or the
    sources-hidden text); if the chain raises, it returns the error pair.
    Formatting never turns an answer into an error. *)
Theorem answer_question_end_to_end (rc : RAGChain.t) (question : str)
    (show_sources : bool) (w : World) :
  forallb isspace question = false ->
  app.answer_question (app.rag_chain rc) question show_sources w
  = match chain_invoke (RAGChain.chain rc) question w with
    | (Return response, w') =>
        (Return (response_answer response,
                 if show_sources
                 then RAGChain.format_sources (response_context response)
                 else "Sources hidden (enable 'Show Sources' to view)" : str),
         w')
    | (Raise e, w') => (Return ("Error: " ++ str_of_exn e, "" : str), w')
    end.
Proof.
  intros Hq. apply answer_question_via_chain.
  intros Hnil. apply strip_nil_iff in Hnil. congruence.
Qed.

(** X10: Over a [RAGChain], the handler's three outcomes cannot be mistaken
    for one another: it returns [("Please enter a question.", "")] if and
    only if the question is blank, and for a question with text the second
    component is empty if and only if the chain raised. *)
Theorem outcomes_are_distinct (rc : RAGChain.t) (question : str)
    (show_sources : bool) (w : World) :
  (fst (app.answer_question (app.rag_chain rc) question show_sources w)
   = Return ("Please enter a question." : str, "" : str)
   <-> forallb isspace question = true)
  /\ (forallb isspace question = false ->
      forall out,
        fst (app.answer_question (app.rag_chain rc) question show_sources w)
        = Return out ->
        (snd out = [] <->
         exists e, fst (chain_invoke (RAGChain.chain rc) question w) = Raise e)).
Proof.
  destruct (forallb isspace question) eqn:Hq.
  - split; [|discriminate]. split; [reflexivity|]. intros _.
    unfold app.answer_question. rewrite (strip_blank question Hq). reflexivity.
  - assert (Hstrip : strip question <> []).
    { intros Hnil. apply strip_nil_iff in Hnil. congruence. }
    rewrite (answer_question_via_chain rc question show_sources w Hstrip).
    destruct (chain_invoke (RAGChain.chain rc) question w)
      as [[response|e] w']; simpl.
    + split.
      * split; [|discriminate]. intros [= _ Hsources]. exfalso.
        destruct show_sources;
          [exact (format_sources_not_empty _ Hsources) | discriminate].
      * intros _ out [= <-]. simpl. split.
        -- intros Hsources. exfalso. destruct show_sources;
             [exact (format_sources_not_empty _ Hsources) | discriminate].
        -- intros (e & [=]).
    + split.
      * split; [|discriminate]. intros [=].
      * intros _ out [= <-]. simpl. split; [eauto | reflexivity].
Qed.

End serving.

(** A question about the sky on an index of two passages: the answer and
    both sources, the matching passage first. *)
Lemma answer_question_end_to_end_witness :
  @app.answer_question memory.backend (app.rag_chain memory.served_chain)
    "sky" true memory.indexed_world
  = (Return ("The sky is blue." : str,
             "[1] File: /docs/sky.pdf | Page: 0" ++ nl
             ++ "    Content: The sky is blue...." ++ nl
             ++ nl
             ++ "[2] File: /docs/grass.pdf | Page: 0" ++ nl
             ++ "    Content: Grass is green...." ++ nl),
     memory.indexed_world).
Proof.
  rewrite (@answer_question_end_to_end memory.backend memory.served_chain
             "sky" true memory.indexed_world eq_refl).
  vm_compute. reflexivity.
Defined.

(** ** The ingestion script (ingest.py) *)

(** A sequence that returns has run both of its parts. *)
Lemma bind_returns {W A B : Type} (m : M W A) (k : A -> M W B) (w : W)
    (b : B) (w' : W) :
  bind m k w = (Return b, w') ->
  exists a w1, m w = (Return a, w1) /\ k a w1 = (Return b, w').
Proof.
  unfold bind. destruct (m w) as [[a|e] w1]; [|discriminate].
  intros Hk. exists a, w1. split; [reflexivity | exact Hk].
Qed.

(** A [try] that returns did so in its body or in its handler. *)
Lemma try_except_returns {W A : Type} (body : M W A) (handler : exn -> M W A)
    (w : W) (a : A) (w' : W) :
  try_except body handler w = (Return a, w') ->
  body w = (Return a, w')
  \/ exists e w1, body w = (Raise e, w1) /\ handler e w1 = (Return a, w').
Proof.
  unfold try_except. destruct (body w) as [[a0|e] w1].
  - intros [= <- <-]. left. reflexivity.
  - intros Hh. right. exists e, w1. split; [reflexivity | exact Hh].
Qed.

Section ingestion.
Context {conf : Config} {be : Backend} {host : Host}.

Lemma main_after_opening (w : World) :
  ingest.main w
  = match ingest.opening w with
    | (Return _, w0) => ingest.attempt w0
    | (Raise e, w0) => (Raise e, w0)
    end.
Proof.
  unfold ingest.main, ingest.opening, bind.
  destruct (emit _ w) as [[[]|e] wa]; [|reflexivity].
  destruct (emit _ wa) as [[[]|e] wb]; [|reflexivity].
  destruct (emit _ wb) as [[[]|e] wc]; reflexivity.
Qed.

(** The handler returns status 1 or not at all. *)
Lemma report_status (e : exn) (w : World) (status : Z) (w' : World) :
  ingest.report e w = (Return status, w') -> status = 1.
Proof.
  unfold ingest.report. intros Hr.
  apply bind_returns in Hr as (? & ? & _ & [= <- _]). reflexivity.
Qed.

(** What a returning [try] block of [main] has done. *)
Lemma attempt_returns (w0 : World) (status : Z) (w' : World) :
  ingest.attempt w0 = (Return status, w') ->
  status = 1
  \/ (status = 0
      /\ exists chunks w1 vs_manager w2 created w3,
          DocumentProcessor.process_documents DocumentProcessor.__init__ None
            w0 = (Return chunks, w1)
          /\ chunks <> []
          /\ VectorStoreManager.__init__ w1 = (Return vs_manager, w2)
          /\ VectorStoreManager.create_vectorstore vs_manager chunks true w2
             = (Return created, w3)).
Proof.
  unfold ingest.attempt. intros Hrun.
  apply try_except_returns in Hrun as [Hbody | (e & w1 & _ & Hh)].
  - apply bind_returns in Hbody as (chunks & w1 & Hproc & Hrest).
    destruct chunks as [|chunk chunks].
    + apply bind_returns in Hrest as (? & ? & _ & [= <- _]). left. reflexivity.
    + apply bind_returns in Hrest as (vs_manager & w2 & Hinit & Hrest).
      apply bind_returns in Hrest as (created & w3 & Hcreate & Hrest).
      do 4 (apply bind_returns in Hrest as (? & ? & _ & Hrest)).
      apply bind_returns in Hrest as (? & ? & _ & Hrest).
      do 2 (apply bind_returns in Hrest as (? & ? & _ & Hrest)).
      injection Hrest as <- _. right. split; [reflexivity|].
      exists (chunk :: chunks), w1, vs_manager, w2, created, w3.
      repeat split; try assumption. discriminate.
  - left. apply (report_status e w1 status w').
    unfold ingest.report. exact Hh.
Qed.

(** X11: [main] exits with status 0 only if [process_documents], the
    manager's constructor and [create_vectorstore(chunks, persist=True)]
    all returned, the index being built from the chunks that
    [process_documents] returned, a list that is not empty; no status other
    than 0 and 1 occurs.  When one of the three steps raises, [main] runs
    its handler on that exception: the error is printed after ["ERROR: "]
    and the status is 1, unless that print fails in its turn.  A failure of
    the opening prints leaves [main] as it was raised. *)
Theorem ingest_main_outcome (w : World) :
  (forall status w',
      ingest.main w = (Return status, w') ->
      (status = 0 \/ status = 1)
      /\ (status = 0 ->
          exists w0 chunks w1 vs_manager w2 created w3,
            ingest.opening w = (Return tt, w0)
            /\ DocumentProcessor.process_documents DocumentProcessor.__init__
                 None w0 = (Return chunks, w1)
            /\ chunks <> []
            /\ VectorStoreManager.__init__ w1 = (Return vs_manager, w2)
            /\ VectorStoreManager.create_vectorstore vs_manager chunks true w2
               = (Return created, w3)))
  /\ (forall w0 e w1,
      ingest.opening w = (Return tt, w0) ->
      DocumentProcessor.process_documents DocumentProcessor.__init__ None w0
      = (Raise e, w1)
      \/ (exists chunks w2,
             DocumentProcessor.process_documents DocumentProcessor.__init__
               None w0 = (Return chunks, w2)
             /\ (VectorStoreManager.__init__ w2 = (Raise e, w1)
                 \/ exists vs_manager w3,
                     VectorStoreManager.__init__ w2 = (Return vs_manager, w3)
                     /\ VectorStoreManager.create_vectorstore vs_manager
                          chunks true w3 = (Raise e, w1))) ->
      ingest.main w = ingest.report e w1)
  /\ (forall e w0,
      ingest.opening w = (Raise e, w0) -> ingest.main w = (Raise e, w0)).
Proof.
  rewrite main_after_opening. split; [|split].
  - intros status w' Hmain.
    destruct (ingest.opening w) as [[[]|e] w0]; [|discriminate].
    destruct (attempt_returns w0 status w' Hmain)
      as [-> | (-> & chunks & w1 & m & w2 & created & w3 & H)].
    + split; [right; reflexivity | discriminate].
    + split; [left; reflexivity|]. intros _.
      exists w0, chunks, w1, m, w2, created, w3. split; [reflexivity | exact H].
  - intros w0 e w1 -> Hfail. unfold ingest.attempt, ingest.report, try_except.
    destruct Hfail as [Hproc | (chunks & w2 & Hproc & Hfail)].
    + unfold bind at 1. rewrite Hproc. reflexivity.
    + destruct (process_documents_cases _ _ _ _ _ Hproc)
        as [(e0 & _ & [=]) | [(_ & msg & [=]) | (docs & wd & _ & _ & H)]].
      destruct H as [(e0 & _ & [=]) | [(wc & _ & [=]) |
                     (chunks' & wc & _ & Hne & [= <-])]].
      destruct chunks as [|chunk chunks]; [contradiction|].
      unfold bind at 1. rewrite Hproc.
      destruct Hfail as [Hinit | (m & w3 & Hinit & Hcreate)].
      * unfold bind at 1. rewrite Hinit. reflexivity.
      * unfold bind at 1. rewrite Hinit.
        unfold bind at 1. rewrite Hcreate. reflexivity.
  - intros e w0 ->. reflexivity.
Qed.

End ingestion.

(** Ingestion of one PDF ends with status 0 and the collection in the
    index.  Without PDFs it ends with status 1 and the error on the
    console; behind an ASCII-only output the handler's own print fails and
    its [UnicodeEncodeError] leaves [main]. *)
Lemma ingest_main_outcome_witness :
  (exists w',
      @ingest.main memory.cfg memory.backend fixtures.host fixtures.ready_world
      = (Return 0, w')
      /\ map fst (memory.collections w') = ["document_qa_collection" : str])
  /\ (exists w',
        @ingest.main memory.cfg memory.backend fixtures.host memory.empty_world
        = (Return 1, w')
        /\ last (memory.console w')
           = Some (nl ++ cross_mark
                   ++ " ERROR: No PDF files found in /srv/rag/data/documents"))
  /\ fst (@ingest.main memory.cfg memory.backend fixtures.ascii_host
            memory.empty_world)
     = Raise (OtherError "UnicodeEncodeError"
                "'ascii' codec can't encode character").
Proof.
  split; [|split].
  - pose (run := @ingest.main memory.cfg memory.backend fixtures.host
                   fixtures.ready_world).
    assert (Hrun : run = (Return 0, snd run)) by (vm_compute; reflexivity).
    exists (snd run). split; [exact Hrun|].
    destruct (proj2 (proj1 (@ingest_main_outcome memory.cfg memory.backend
                              fixtures.host fixtures.ready_world)
                       0 (snd run) Hrun) eq_refl)
      as (w0 & chunks & w1 & m & w2 & created & w3 & _).
    vm_compute. reflexivity.
  - pose (opened := @ingest.opening memory.backend fixtures.host
                      memory.empty_world).
    pose (failed := @DocumentProcessor.process_documents memory.cfg
                      memory.backend (@DocumentProcessor.__init__ memory.cfg)
                      None (snd opened)).
    assert (Hopen : opened = (Return tt, snd opened)) by reflexivity.
    assert (Hfail :
      failed = (Raise (ValueError
                         ("No PDF files found in " ++ @DOCUMENTS_DIR memory.cfg)),
                snd failed)) by (vm_compute; reflexivity).
    eexists. split.
    + rewrite (proj1 (proj2 (@ingest_main_outcome memory.cfg memory.backend
                               fixtures.host memory.empty_world))
                 _ _ _ Hopen (or_introl Hfail)).
      reflexivity.
    + vm_compute. reflexivity.
  - pose (opened := @ingest.opening memory.backend fixtures.ascii_host
                      memory.empty_world).
    pose (failed := @DocumentProcessor.process_documents memory.cfg
                      memory.backend (@DocumentProcessor.__init__ memory.cfg)
                      None (snd opened)).
    assert (Hopen : opened = (Return tt, snd opened)) by reflexivity.
    assert (Hfail :
      failed = (Raise (ValueError
                         ("No PDF files found in " ++ @DOCUMENTS_DIR memory.cfg)),
                snd failed)) by (vm_compute; reflexivity).
    rewrite (proj1 (proj2 (@ingest_main_outcome memory.cfg memory.backend
                             fixtures.ascii_host memory.empty_world))
               _ _ _ Hopen (or_introl Hfail)).
    vm_compute. reflexivity.
Defined.

(** ** Environment checks (src/utils.py) *)

Section environment.
Context {conf : Config} {be : Backend} {host : Host}.

(** Once [requests] is imported the Ollama check returns. *)
Lemma check_ollama_running_after_import (w w1 : World) :
  import_requests w = (Return tt, w1) ->
  exists running,
    utils.check_ollama_running w
    = (Return running,
       snd (requests_get_status "http://localhost:11434/api/tags" 2 w1))
    /\ (running = true <->
        fst (requests_get_status "http://localhost:11434/api/tags" 2 w1)
        = Return 200).
Proof.
  intros Himport. unfold utils.check_ollama_running.
  unfold bind at 1. rewrite Himport. run_m.
  destruct (requests_get_status _ _ w1) as [[status|e] w'].
  - exists (status =? 200). split; [reflexivity|].
    simpl. rewrite Z.eqb_eq.
    split; [intros ->; reflexivity | intros [= ->]; reflexivity].
  - exists false. split; [reflexivity|]. simpl. split; discriminate.
Qed.

(** X12: [check_ollama_running] raises only when its [import requests]
    fails, and then with that exception.  Once the import has succeeded it
    never raises: it returns [True] exactly when the request to
    [http://localhost:11434/api/tags] comes back with status 200, and
    [False] for any other status and for any failure of the request.  The
    address is fixed; [OLLAMA_BASE_URL] plays no part. *)
Theorem check_ollama_running_outcome (w : World) :
  (forall e w1,
      import_requests w = (Raise e, w1) ->
      utils.check_ollama_running w = (Raise e, w1))
  /\ (forall w1,
      import_requests w = (Return tt, w1) ->
      exists running,
        utils.check_ollama_running w
        = (Return running,
           snd (requests_get_status "http://localhost:11434/api/tags" 2 w1))
        /\ (running = true <->
            fst (requests_get_status "http://localhost:11434/api/tags" 2 w1)
            = Return 200)).
Proof.
  split.
  - intros e w1 Himport. unfold utils.check_ollama_running.
    unfold bind at 1. rewrite Himport. reflexivity.
  - intros w1. apply check_ollama_running_after_import.
Qed.

(** X13: When both imports succeed and the directory test and the search
    for PDFs return, [validate_environment] returns a list of at most three
    issues, in the fixed order directory, PDFs, Ollama, and the list is
    empty exactly when the documents directory exists, it holds at least
    one PDF and the Ollama check answers [True].  The PDFs are counted even
    when the directory is missing. *)
Theorem validate_environment_issues (w w0 : World) (found : bool)
    (w1 : World) (paths : list str) (w2 w3 : World) :
  import_config w = (Return tt, w0) ->
  path_exists DOCUMENTS_DIR w0 = (Return found, w1) ->
  glob_pdf DOCUMENTS_DIR w1 = (Return paths, w2) ->
  import_requests w2 = (Return tt, w3) ->
  exists running w4,
    utils.check_ollama_running w2 = (Return running, w4)
    /\ utils.validate_environment w
       = (Return
            ((if found then []
              else ["Documents directory missing: " ++ DOCUMENTS_DIR])
             ++ (match paths with
                 | [] => ["No PDF files found in " ++ DOCUMENTS_DIR]
                 | _ :: _ => []
                 end)
             ++ (if running then []
                 else ["Ollama not running. Start it with: ollama serve"
                       : str])),
          w4)
    /\ (forall issues,
          fst (utils.validate_environment w) = Return issues ->
          (length issues <= 3)%nat
          /\ (issues = [] <->
              found = true /\ paths <> [] /\ running = true)).
Proof.
  intros Hconfig Hfound Hglob Himport.
  destruct (check_ollama_running_after_import w2 w3 Himport)
    as (running & Hrun & _).
  exists running, (snd (requests_get_status "http://localhost:11434/api/tags"
                          2 w3)).
  split; [exact Hrun|].
  assert (Hval :
    utils.validate_environment w
    = (Return
         ((if found then []
           else ["Documents directory missing: " ++ DOCUMENTS_DIR])
          ++ (match paths with
              | [] => ["No PDF files found in " ++ DOCUMENTS_DIR]
              | _ :: _ => []
              end)
          ++ (if running then []
              else ["Ollama not running. Start it with: ollama serve"
                    : str])),
       snd (requests_get_status "http://localhost:11434/api/tags" 2 w3))).
  { unfold utils.validate_environment, utils.count_pdf_files.
    unfold bind at 1. rewrite Hconfig.
    unfold bind at 1. rewrite Hfound.
    unfold bind at 1 2. rewrite Hglob. unfold ret at 1.
    unfold bind at 1. rewrite Hrun. unfold ret.
    destruct found, paths as [|p paths], running; reflexivity. }
  split; [exact Hval|].
  intros issues. rewrite Hval. simpl. intros [= <-].
  destruct found, paths as [|p paths], running; simpl;
    (split; [lia|]); split;
    try discriminate; try (intros (? & ? & ?); congruence);
    try (intros _; repeat split; congruence).
Qed.

End environment.

(** Without the [requests] package the check raises; with it and a
    server that is down it answers [False]. *)
Lemma check_ollama_running_outcome_witness :
  fst (@utils.check_ollama_running memory.backend fixtures.ascii_host
         memory.empty_world)
  = Raise (OtherError "ModuleNotFoundError" "No module named 'requests'")
  /\ fst (@utils.check_ollama_running memory.backend fixtures.host
            (memory.ollama_down memory.empty_world))
     = Return false.
Proof.
  split.
  - rewrite (proj1 (@check_ollama_running_outcome memory.backend
                      fixtures.ascii_host memory.empty_world)
               (OtherError "ModuleNotFoundError" "No module named 'requests'")
               memory.empty_world eq_refl).
    reflexivity.
  - destruct (proj2 (@check_ollama_running_outcome memory.backend
                       fixtures.host (memory.ollama_down memory.empty_world))
                (memory.ollama_down memory.empty_world) eq_refl)
      as (running & Hrun & _).
    rewrite Hrun. simpl. f_equal.
    assert (Hfst :
      fst (@utils.check_ollama_running memory.backend fixtures.host
             (memory.ollama_down memory.empty_world)) = Return false)
      by reflexivity.
    rewrite Hrun in Hfst. simpl in Hfst. injection Hfst as ->. reflexivity.
Defined.

(** On the in-memory host: a machine with a PDF and a running server has
    no issue; a machine with neither has all three, in order. *)
Lemma validate_environment_issues_witness :
  fst (@utils.validate_environment memory.cfg memory.backend fixtures.host
         fixtures.ready_world) = Return []
  /\ fst (@utils.validate_environment memory.cfg memory.backend fixtures.host
            (memory.ollama_down memory.empty_world))
     = Return [ "Documents directory missing: /srv/rag/data/documents" : str;
                "No PDF files found in /srv/rag/data/documents" : str;
                "Ollama not running. Start it with: ollama serve" : str ].
Proof.
  split.
  - destruct (@validate_environment_issues memory.cfg memory.backend
                fixtures.host fixtures.ready_world fixtures.ready_world true
                fixtures.ready_world
                [config.path_join (@DOCUMENTS_DIR memory.cfg) "sky.pdf"]
                fixtures.ready_world fixtures.ready_world
                eq_refl eq_refl eq_refl eq_refl)
      as (running & w4 & _ & Hval & _).
    vm_compute. reflexivity.
  - destruct (@validate_environment_issues memory.cfg memory.backend
                fixtures.host (memory.ollama_down memory.empty_world)
                (memory.ollama_down memory.empty_world) false
                (memory.ollama_down memory.empty_world) []
                (memory.ollama_down memory.empty_world)
                (memory.ollama_down memory.empty_world)
                eq_refl eq_refl eq_refl eq_refl)
      as (running & w4 & Hrun & Hval & _).
    rewrite Hval. injection Hrun as <- _. reflexivity.
Defined.
